(** * CppSqlWrapper: a shallow embedding of [CppSqlWrapper.cpp] / [CppSqlWrapper.h]

    The wrapper is glue code around the SQLite3 C API.  The API itself is not
    part of the repository, so it is kept abstract: an [Engine] answers the
    calls of [sqlite3_api] and threads its own state.  The wrapper's objects
    ([SqlStatement], [SqlDatabase]) live in a store indexed by their address,
    because the code mutates them in place, keeps back-pointers to them
    ([ResultRow::mpParent]) and leaves them mutated when an exception
    propagates. *)

From Stdlib Require Import ZArith String Ascii List Bool Lia.
From Stdlib Require PrimFloat.
From stdpp Require Import base option gmap strings pretty list.

Open Scope Z_scope.

(** ** Pointers and handles *)

(** A native handle is a non-null address; a C pointer to one is an [option]. *)
Definition sqlite3 := positive.
Definition sqlite3_stmt := positive.
Definition addr := positive.
Abbreviation NULL := None (only parsing).

(** C [double]. *)
Definition double := PrimFloat.float.

(** [p != 0] for a pointer. *)
Definition nonnull {A} (p : option A) : bool :=
  match p with
  | Some _ => true
  | None => false
  end.

(** [const char*]: a possibly null pointer to a NUL-terminated string. *)
Definition cstring := option string.

(** The bytes of a C string stop at the first NUL. *)
Fixpoint c_str (s : string) : string :=
  match s with
  | EmptyString => EmptyString
  | String c s' => if Ascii.eqb c Ascii.zero then EmptyString else String c (c_str s')
  end.

Definition strlen (s : string) : Z := Z.of_nat (String.length (c_str s)).

Definition strcmp (a b : string) : Z :=
  match String.compare (c_str a) (c_str b) with
  | Eq => 0
  | Lt => -1
  | Gt => 1
  end.

(** ** Constants *)

(** Result codes of [sqlite3.h] (included by the source, not part of it).
    The positions of the names in [code_descr] below agree with the values
    of [SQLITE_OK], [SQLITE_ERROR] and [SQLITE_BUSY]. *)
Definition SQLITE_OK : Z := 0.
Definition SQLITE_ERROR : Z := 1.
Definition SQLITE_BUSY : Z := 5.
Definition SQLITE_ROW : Z := 100.
Definition SQLITE_DONE : Z := 101.

(** [enum SqlType] of [CppSqlWrapper.h]. *)
Definition SQLITE_INTEGER : Z := 1.
Definition SQLITE_FLOAT : Z := 2.
Definition SQLITE_TEXT : Z := 3.
Definition SQLITE_BLOB : Z := 4.
Definition SQLITE_NULL : Z := 5.

Definition INT_MAX : Z := 2147483647.
Definition INT_MIN : Z := -2147483648.

(** The conversion of an integer value to [int] when it is passed for an
    [int] parameter: the value modulo 2^32 in [INT_MIN .. INT_MAX]. *)
Definition to_int (z : Z) : Z := (z - INT_MIN) mod 4294967296 + INT_MIN.

(** ** Exceptions *)

Inductive exn :=
| SqlDatabaseException (reason : string)
| SqlDatabaseBusyException.

(** [std::runtime_error::what()] as built by the two constructors of the header. *)
Definition what (e : exn) : string :=
  match e with
  | SqlDatabaseException reason => "Database error: " +:+ reason
  | SqlDatabaseBusyException => "Database error: " +:+ "Database error: Database busy."
  end.

(** The error kinds the specification names, as the exceptions the code throws. *)
Definition AssertionFailed (a : string) : exn :=
  SqlDatabaseException ("Assertion failed: " +:+ a).
Definition InvalidHandle_stmt : exn := AssertionFailed "mpVM != NULL".
Definition InvalidHandle_row : exn := AssertionFailed "mpParent->mpVM != NULL".
Definition InvalidHandle_db : exn := AssertionFailed "mpDB != NULL".
Definition InvalidState : exn :=
  SqlDatabaseException "called currentRow() after reaching end of rows".
Definition IndexOutOfRange : exn := SqlDatabaseException "Invalid column index.".
Definition FieldNotFound : exn := SqlDatabaseException "Invalid field name requested".
Definition StatementsStillOpen : exn :=
  SqlDatabaseException
    "Tried to close a database before deleting or calling destroy() on all statement objects.".
Definition MultipleStatements_compile : exn :=
  SqlDatabaseException
    "sqlCompile() only compiles the first statement; other statements have been ignored.".
Definition MultipleStatements_query : exn :=
  SqlDatabaseException
    "sqlQuery() only compiles the first statement; other statements have been ignored.".
Definition FormattingFailed : exn :=
  SqlDatabaseException "Unable to apply format to SQL string".

(** ** The SQLite3 C API, as far as the wrapper calls it *)

(** An argument passed through [...] / [va_list]. *)
Inductive va_arg :=
| va_str (s : cstring)
| va_int (n : Z)
| va_double (d : double).

(** One constructor per API function; the index is the C return type (with
    out-parameters made part of the result).  Arguments the wrapper always
    passes as the same constant (the length [-1], [SQLITE_TRANSIENT], null
    callbacks) are left out. *)
Inductive sqlite3_api : Type -> Type :=
| sqlite3_errmsg (db : option sqlite3) : sqlite3_api string
| sqlite3_db_handle (vm : option sqlite3_stmt) : sqlite3_api (option sqlite3)
| sqlite3_finalize (vm : option sqlite3_stmt) : sqlite3_api Z
| sqlite3_reset (vm : option sqlite3_stmt) : sqlite3_api Z
| sqlite3_step (vm : option sqlite3_stmt) : sqlite3_api Z
| sqlite3_bind_text (vm : option sqlite3_stmt) (i : Z) (sz : cstring) : sqlite3_api Z
| sqlite3_bind_int (vm : option sqlite3_stmt) (i : Z) (n : Z) : sqlite3_api Z
| sqlite3_bind_int64 (vm : option sqlite3_stmt) (i : Z) (n : Z) : sqlite3_api Z
| sqlite3_bind_double (vm : option sqlite3_stmt) (i : Z) (d : double) : sqlite3_api Z
| sqlite3_bind_blob (vm : option sqlite3_stmt) (i : Z) (blob : option (list Byte.byte))
    (nLen : Z) : sqlite3_api Z
| sqlite3_bind_null (vm : option sqlite3_stmt) (i : Z) : sqlite3_api Z
| sqlite3_column_count (vm : option sqlite3_stmt) : sqlite3_api Z
| sqlite3_column_type (vm : option sqlite3_stmt) (i : Z) : sqlite3_api Z
| sqlite3_column_int (vm : option sqlite3_stmt) (i : Z) : sqlite3_api Z
| sqlite3_column_int64 (vm : option sqlite3_stmt) (i : Z) : sqlite3_api Z
| sqlite3_column_double (vm : option sqlite3_stmt) (i : Z) : sqlite3_api double
| sqlite3_column_text (vm : option sqlite3_stmt) (i : Z) : sqlite3_api cstring
| sqlite3_column_bytes (vm : option sqlite3_stmt) (i : Z) : sqlite3_api Z
| sqlite3_column_blob (vm : option sqlite3_stmt) (i : Z) : sqlite3_api (option (list Byte.byte))
| sqlite3_column_name (vm : option sqlite3_stmt) (i : Z) : sqlite3_api cstring
| sqlite3_column_decltype (vm : option sqlite3_stmt) (i : Z) : sqlite3_api cstring
| sqlite3_next_stmt (db : option sqlite3) (after : option sqlite3_stmt)
    : sqlite3_api (option sqlite3_stmt)
| sqlite3_close (db : option sqlite3) : sqlite3_api Z
| sqlite3_prepare_v2 (db : option sqlite3) (zSql : string)
    : sqlite3_api (Z * option sqlite3_stmt * cstring)
| sqlite3_exec (db : option sqlite3) (zSql : string) : sqlite3_api Z
| sqlite3_vmprintf (zFormat : string) (args : list va_arg) : sqlite3_api cstring
| sqlite3_free (p : cstring) : sqlite3_api unit
| sqlite3_changes (db : option sqlite3) : sqlite3_api Z
| sqlite3_last_insert_rowid (db : option sqlite3) : sqlite3_api Z
| sqlite3_busy_timeout (db : option sqlite3) (ms : Z) : sqlite3_api Z
| sqlite3_interrupt (db : option sqlite3) : sqlite3_api unit.

(** A call as it is recorded in the trace. *)
Definition api_event : Type := { R : Type & sqlite3_api R }.
Definition Called {R} (c : sqlite3_api R) : api_event := existT R c.

(** An engine answers every call and moves to its next state. *)
Class Engine := {
  eng_state : Type;
  eng_call : forall R, sqlite3_api R -> eng_state -> R * eng_state
}.
Arguments eng_state : clear implicits.
Arguments eng_call {_ R} _ _.

(** ** The wrapper's objects *)

Record ResultRow := { mpParent : addr }.

Record SqlStatement := {
  mpVM : option sqlite3_stmt;
  mBindNext : Z;
  mEndOfRows : bool;
  mResult : ResultRow;
  mColsInResult : Z
}.

Record SqlDatabase := {
  mpDB : option sqlite3;
  mnBusyTimeoutMs : Z
}.

Definition with_mpVM (v : option sqlite3_stmt) (s : SqlStatement) : SqlStatement :=
  {| mpVM := v; mBindNext := mBindNext s; mEndOfRows := mEndOfRows s;
     mResult := mResult s; mColsInResult := mColsInResult s |}.
Definition with_mBindNext (v : Z) (s : SqlStatement) : SqlStatement :=
  {| mpVM := mpVM s; mBindNext := v; mEndOfRows := mEndOfRows s;
     mResult := mResult s; mColsInResult := mColsInResult s |}.
Definition with_mEndOfRows (v : bool) (s : SqlStatement) : SqlStatement :=
  {| mpVM := mpVM s; mBindNext := mBindNext s; mEndOfRows := v;
     mResult := mResult s; mColsInResult := mColsInResult s |}.
Definition with_mResult (v : ResultRow) (s : SqlStatement) : SqlStatement :=
  {| mpVM := mpVM s; mBindNext := mBindNext s; mEndOfRows := mEndOfRows s;
     mResult := v; mColsInResult := mColsInResult s |}.
Definition with_mColsInResult (v : Z) (s : SqlStatement) : SqlStatement :=
  {| mpVM := mpVM s; mBindNext := mBindNext s; mEndOfRows := mEndOfRows s;
     mResult := mResult s; mColsInResult := v |}.

Definition with_mpDB (v : option sqlite3) (d : SqlDatabase) : SqlDatabase :=
  {| mpDB := v; mnBusyTimeoutMs := mnBusyTimeoutMs d |}.
Definition with_mnBusyTimeoutMs (v : Z) (d : SqlDatabase) : SqlDatabase :=
  {| mpDB := mpDB d; mnBusyTimeoutMs := v |}.

(** ** Outcomes of a call into the wrapper *)

Inductive outcome (A : Type) :=
| Ret (a : A)
| Throw (e : exn)
| Undefined (why : string).
Arguments Ret {A} a.
Arguments Throw {A} e.
Arguments Undefined {A} why.

(** ** C library pieces the wrapper uses directly *)

(** [code_descr] of [ThrowStatusCodeException]. *)
Definition code_descr : list string :=
  [ "SQLITE_OK"; "SQLITE_ERROR"; "SQLITE_INTERNAL"; "SQLITE_PERM";
    "SQLITE_ABORT"; "SQLITE_BUSY"; "SQLITE_LOCKED"; "SQLITE_NOMEM";
    "SQLITE_READONLY"; "SQLITE_INTERRUPT";
    "SQLITE_IOERR"; "SQLITE_CORRUPT"; "SQLITE_NOTFOUND"; "SQLITE_FULL";
    "SQLITE_CANTOPEN";
    "SQLITE_PROTOCOL"; "SQLITE_EMPTY"; "SQLITE_SCHEMA"; "SQLITE_TOOBIG";
    "SQLITE_CONSTRAINT";
    "SQLITE_MISMATCH"; "SQLITE_MISUSE"; "SQLITE_NOLFS"; "SQLITE_AUTH";
    "SQLITE_FORMAT"; "SQLITE_RANGE";
    "SQLITE_NOTADB" ]%string.

(** [arr[i]] for a C array: defined only for [0 <= i < length]. *)
Definition array_read {A} (arr : list A) (i : Z) : option A :=
  if i <? 0 then None else nth_error arr (Z.to_nat i).

(** The characters [sprintf] produces for a format that uses only [%s] and
    [%%]; [None] for any other conversion or a missing argument. *)
Fixpoint c_format (fmt : string) (args : list string) : option string :=
  match fmt with
  | EmptyString => Some EmptyString
  | String "%" (String "s" rest) =>
      match args with
      | a :: args' => option_map (String.append (c_str a)) (c_format rest args')
      | [] => None
      end
  | String "%" (String "%" rest) => option_map (String "%") (c_format rest args)
  | String "%" _ => None
  | String c rest => option_map (String c) (c_format rest args)
  end.

(** ** The wrapper, over an arbitrary engine *)

Section Wrapper.

Context {Eng : Engine}.

(** Everything a call can read or change: the engine, the trace of API
    calls made so far, and the two object stores. *)
Record World := {
  w_eng : eng_state Eng;
  w_log : list api_event;
  w_stmts : gmap addr SqlStatement;
  w_dbs : gmap addr SqlDatabase
}.

Definition set_stmts (m : gmap addr SqlStatement) (w : World) : World :=
  {| w_eng := w_eng w; w_log := w_log w; w_stmts := m; w_dbs := w_dbs w |}.
Definition set_dbs (m : gmap addr SqlDatabase) (w : World) : World :=
  {| w_eng := w_eng w; w_log := w_log w; w_stmts := w_stmts w; w_dbs := m |}.

(** A computation of the wrapper: state passing, with C++ exceptions and
    undefined behaviour as outcomes.  The world a [Throw] carries is the one
    the exception leaves behind. *)
Definition M (A : Type) : Type := World -> outcome A * World.

#[export] Instance M_ret : MRet M := fun A a w => (Ret a, w).
#[export] Instance M_bind : MBind M := fun A B k m w =>
  match m w with
  | (Ret a, w') => k a w'
  | (Throw e, w') => (Throw e, w')
  | (Undefined u, w') => (Undefined u, w')
  end.

Definition throw {A} (e : exn) : M A := fun w => (Throw e, w).
Definition undefined {A} (why : string) : M A := fun w => (Undefined why, w).

(** [try { m } catch (...) {}] *)
Definition try_catch_all (m : M unit) : M unit := fun w =>
  match m w with
  | (Throw _, w') => (Ret tt, w')
  | r => r
  end.

(** A block whose local object is destroyed on the way out, also when the
    block is left by an exception. *)
Definition scoped {A} (dtor : M unit) (body : M A) : M A := fun w =>
  match body w with
  | (Ret a, w1) =>
      match dtor w1 with
      | (Ret _, w2) => (Ret a, w2)
      | (Throw e, w2) => (Throw e, w2)
      | (Undefined u, w2) => (Undefined u, w2)
      end
  | (Throw e, w1) =>
      match dtor w1 with
      | (Ret _, w2) => (Throw e, w2)
      | (Throw _, w2) => (Undefined "std::terminate", w2)
      | (Undefined u, w2) => (Undefined u, w2)
      end
  | (Undefined u, w1) => (Undefined u, w1)
  end.

(** A call into the engine, recorded in the trace. *)
Definition call {R} (c : sqlite3_api R) : M R := fun w =>
  let (r, e') := eng_call c (w_eng w) in
  (Ret r, {| w_eng := e'; w_log := w_log w ++ [Called c];
             w_stmts := w_stmts w; w_dbs := w_dbs w |}).

(** Member access through [this]. *)
Definition stmt_get {A} (this : addr) (field : SqlStatement -> A) : M A := fun w =>
  match w_stmts w !! this with
  | Some s => (Ret (field s), w)
  | None => (Undefined "no SqlStatement at this address", w)
  end.
Definition stmt_set {A} (this : addr) (upd : A -> SqlStatement -> SqlStatement) (v : A)
  : M unit := fun w =>
  match w_stmts w !! this with
  | Some s => (Ret tt, set_stmts (<[this := upd v s]> (w_stmts w)) w)
  | None => (Undefined "no SqlStatement at this address", w)
  end.
Definition stmt_construct (this : addr) (s : SqlStatement) : M unit := fun w =>
  (Ret tt, set_stmts (<[this := s]> (w_stmts w)) w).
Definition stmt_release (this : addr) : M unit := fun w =>
  (Ret tt, set_stmts (delete this (w_stmts w)) w).

Definition db_get {A} (this : addr) (field : SqlDatabase -> A) : M A := fun w =>
  match w_dbs w !! this with
  | Some d => (Ret (field d), w)
  | None => (Undefined "no SqlDatabase at this address", w)
  end.
Definition db_set {A} (this : addr) (upd : A -> SqlDatabase -> SqlDatabase) (v : A)
  : M unit := fun w =>
  match w_dbs w !! this with
  | Some d => (Ret tt, set_dbs (<[this := upd v d]> (w_dbs w)) w)
  | None => (Undefined "no SqlDatabase at this address", w)
  end.
Definition db_construct (this : addr) (d : SqlDatabase) : M unit := fun w =>
  (Ret tt, set_dbs (<[this := d]> (w_dbs w)) w).
Definition db_release (this : addr) : M unit := fun w =>
  (Ret tt, set_dbs (delete this (w_dbs w)) w).

(** Storage for a temporary or local [SqlStatement], away from [avoid]. *)
Definition stmt_storage (avoid : gset addr) : M addr := fun w =>
  (Ret (fresh (avoid ∪ dom (w_stmts w))), w).

(** [#define assert(a) if (!(a)) { throw SqlDatabaseException("Assertion failed: " #a); }] *)
Definition assert_ (a : bool) (text : string) : M unit :=
  if a then mret tt else throw (AssertionFailed text).
(** [#define require(b) assert(b != NULL)] *)
Definition require {P} (b : option P) (text : string) : M unit :=
  assert_ (nonnull b) (text +:+ " != NULL").

(** *** ThrowStatusCodeException *)

Definition ThrowStatusCodeException (statusCode : Z) (db : option sqlite3) : M unit :=
  if statusCode =? SQLITE_BUSY then throw SqlDatabaseBusyException
  else if statusCode =? SQLITE_ERROR then
    m ← call (sqlite3_errmsg db);
    throw (SqlDatabaseException m)
  else
    let msg := "Result code " +:+ pretty statusCode in
    if statusCode <? Z.of_nat (length code_descr) then
      match array_read code_descr statusCode with
      | Some d => throw (SqlDatabaseException (msg +:+ " (" +:+ d +:+ ")"))
      | None => undefined "code_descr[statusCode] read outside the array"
      end
    else throw (SqlDatabaseException msg).

Definition ThrowStatusCodeException_vm (statusCode : Z) (vm : option sqlite3_stmt) : M unit :=
  db ← call (sqlite3_db_handle vm);
  ThrowStatusCodeException statusCode db.

(** *** SqlStatement *)

Definition SqlStatement_ctor0 (this : addr) : M unit :=
  stmt_construct this
    {| mpVM := NULL; mBindNext := 1; mEndOfRows := true;
       mResult := {| mpParent := this |}; mColsInResult := 0 |}.

Definition SqlStatement_ctor (this : addr) (pVM : option sqlite3_stmt) : M unit :=
  stmt_construct this
    {| mpVM := pVM; mBindNext := 1; mEndOfRows := true;
       mResult := {| mpParent := this |}; mColsInResult := 0 |}.

Definition SqlStatement_copy_ctor (this rStatement : addr) : M unit :=
  vm ← stmt_get rStatement mpVM;
  bn ← stmt_get rStatement mBindNext;
  eor ← stmt_get rStatement mEndOfRows;
  cols ← stmt_get rStatement mColsInResult;
  stmt_construct this
    {| mpVM := vm; mBindNext := bn; mEndOfRows := eor;
       mResult := {| mpParent := this |}; mColsInResult := cols |};;
  stmt_set rStatement with_mpVM NULL.

Definition SqlStatement_destroy (this : addr) : M unit :=
  stmt_set this with_mEndOfRows true;;
  vm ← stmt_get this mpVM;
  if nonnull vm then
    _ ← call (sqlite3_finalize vm);
    stmt_set this with_mpVM NULL
  else mret tt.

Definition SqlStatement_assign (this rStatement : addr) : M addr :=
  SqlStatement_destroy this;;
  vm ← stmt_get rStatement mpVM; stmt_set this with_mpVM vm;;
  bn ← stmt_get rStatement mBindNext; stmt_set this with_mBindNext bn;;
  eor ← stmt_get rStatement mEndOfRows; stmt_set this with_mEndOfRows eor;;
  stmt_set this with_mResult {| mpParent := this |};;
  cols ← stmt_get rStatement mColsInResult; stmt_set this with_mColsInResult cols;;
  stmt_set rStatement with_mpVM NULL;;
  mret this.

(** [~SqlStatement() { destroy(); }], after which the object is gone. *)
Definition SqlStatement_dtor (this : addr) : M unit :=
  SqlStatement_destroy this;;
  stmt_release this.

Definition SqlStatement_onBind (this : addr) : M unit :=
  vm ← stmt_get this mpVM;
  require vm "mpVM";;
  bn ← stmt_get this mBindNext;
  if bn =? 1 then
    _ ← call (sqlite3_reset vm);
    stmt_set this with_mEndOfRows true;;
    stmt_set this with_mColsInResult 0
  else mret tt.

(** [mBindNext++]: the old value; signed overflow is undefined. *)
Definition mBindNext_post_incr (this : addr) : M Z :=
  bn ← stmt_get this mBindNext;
  if bn =? INT_MAX then undefined "signed integer overflow"
  else stmt_set this with_mBindNext (bn + 1);; mret bn.

Definition SqlStatement_bind_text (this : addr) (szValue : cstring) : M addr :=
  SqlStatement_onBind this;;
  vm ← stmt_get this mpVM;
  i ← mBindNext_post_incr this;
  r ← call (sqlite3_bind_text vm i szValue);
  if negb (r =? SQLITE_OK) then throw (SqlDatabaseException "Error binding string param.")
  else mret this.

Definition SqlStatement_bind_int (this : addr) (nValue : Z) : M addr :=
  SqlStatement_onBind this;;
  vm ← stmt_get this mpVM;
  i ← mBindNext_post_incr this;
  r ← call (sqlite3_bind_int vm i nValue);
  if negb (r =? SQLITE_OK) then throw (SqlDatabaseException "Error binding int param")
  else mret this.

Definition SqlStatement_bind_int64 (this : addr) (nValue : Z) : M addr :=
  SqlStatement_onBind this;;
  vm ← stmt_get this mpVM;
  i ← mBindNext_post_incr this;
  r ← call (sqlite3_bind_int64 vm i nValue);
  if negb (r =? SQLITE_OK) then throw (SqlDatabaseException "Error binding int param")
  else mret this.

Definition SqlStatement_bind_double (this : addr) (dValue : double) : M addr :=
  SqlStatement_onBind this;;
  vm ← stmt_get this mpVM;
  i ← mBindNext_post_incr this;
  r ← call (sqlite3_bind_double vm i dValue);
  if negb (r =? SQLITE_OK) then throw (SqlDatabaseException "Error binding double param")
  else mret this.

Definition SqlStatement_bind_blob (this : addr) (blobValue : option (list Byte.byte))
    (nLen : Z) : M addr :=
  SqlStatement_onBind this;;
  vm ← stmt_get this mpVM;
  i ← mBindNext_post_incr this;
  r ← call (sqlite3_bind_blob vm i blobValue nLen);
  if negb (r =? SQLITE_OK) then throw (SqlDatabaseException "Error binding blob param")
  else mret this.

Definition SqlStatement_bindNull (this : addr) : M addr :=
  SqlStatement_onBind this;;
  vm ← stmt_get this mpVM;
  i ← mBindNext_post_incr this;
  r ← call (sqlite3_bind_null vm i);
  if negb (r =? SQLITE_OK) then throw (SqlDatabaseException "Error binding NULL param")
  else mret this.

Definition SqlStatement_bindSame (this : addr) : M addr :=
  SqlStatement_onBind this;;
  _ ← mBindNext_post_incr this;
  mret this.

(** The seven ways to bind the next parameter, as one argument type. *)
Inductive bind_value :=
| BindText (szValue : cstring)
| BindInt (nValue : Z)
| BindInt64 (nValue : Z)
| BindDouble (dValue : double)
| BindBlob (blobValue : option (list Byte.byte)) (nLen : Z)
| BindNull
| BindSame.

Definition SqlStatement_bind_overload (this : addr) (v : bind_value) : M addr :=
  match v with
  | BindText szValue => SqlStatement_bind_text this szValue
  | BindInt nValue => SqlStatement_bind_int this nValue
  | BindInt64 nValue => SqlStatement_bind_int64 this nValue
  | BindDouble dValue => SqlStatement_bind_double this dValue
  | BindBlob blobValue nLen => SqlStatement_bind_blob this blobValue nLen
  | BindNull => SqlStatement_bindNull this
  | BindSame => SqlStatement_bindSame this
  end.

Definition SqlStatement_execute (this : addr) : M addr :=
  vm ← stmt_get this mpVM;
  require vm "mpVM";;
  stmt_set this with_mBindNext 1;;
  eor ← stmt_get this mEndOfRows;
  (if negb eor then _ ← call (sqlite3_reset vm); mret tt else mret tt);;
  result ← call (sqlite3_step vm);
  if result =? SQLITE_DONE then
    stmt_set this with_mEndOfRows true;;
    stmt_set this with_mColsInResult 0;;
    mret this
  else if result =? SQLITE_ROW then
    stmt_set this with_mEndOfRows false;;
    n ← call (sqlite3_column_count vm);
    stmt_set this with_mColsInResult n;;
    mret this
  else
    ThrowStatusCodeException_vm result vm;;
    mret this.

Definition SqlStatement_currentRow (this : addr) : M ResultRow :=
  vm ← stmt_get this mpVM;
  require vm "mpVM";;
  eor ← stmt_get this mEndOfRows;
  if (eor : bool) then throw InvalidState
  else stmt_get this mResult.

Definition SqlStatement_hasRow (this : addr) : M bool :=
  eor ← stmt_get this mEndOfRows;
  mret (negb eor).

Definition SqlStatement_nextRow (this : addr) : M bool :=
  vm ← stmt_get this mpVM;
  require vm "mpVM";;
  eor ← stmt_get this mEndOfRows;
  if (eor : bool) then mret false
  else
    result ← call (sqlite3_step vm);
    (if result =? SQLITE_DONE then stmt_set this with_mEndOfRows true
     else if result =? SQLITE_ROW then stmt_set this with_mEndOfRows false
     else
       ThrowStatusCodeException_vm result vm;;
       stmt_set this with_mEndOfRows true);;
    eor' ← stmt_get this mEndOfRows;
    mret (negb eor').

(** *** SqlStatement::ResultRow *)

Definition ResultRow_numFields (row : ResultRow) : M Z :=
  vm ← stmt_get (mpParent row) mpVM;
  require vm "mpParent->mpVM";;
  stmt_get (mpParent row) mColsInResult.

Definition ResultRow_checkIndex (row : ResultRow) (nField : Z) : M unit :=
  cols ← stmt_get (mpParent row) mColsInResult;
  if (nField <? 0) || (nField >=? cols) then throw IndexOutOfRange
  else mret tt.

Definition ResultRow_fieldDataType (row : ResultRow) (nField : Z) : M Z :=
  vm ← stmt_get (mpParent row) mpVM;
  require vm "mpParent->mpVM";;
  ResultRow_checkIndex row nField;;
  call (sqlite3_column_type vm nField).

Definition ResultRow_getIntField (row : ResultRow) (nField : Z) (nNullValue : Z) : M Z :=
  t ← ResultRow_fieldDataType row nField;
  if t =? SQLITE_NULL then mret nNullValue
  else
    vm ← stmt_get (mpParent row) mpVM;
    call (sqlite3_column_int vm nField).

(** The result is an [int64_t] but [nNullValue] is declared [int]: what the
    caller passes is converted to [int] at the call, and that [int] is
    returned widened. *)
Definition ResultRow_getInt64Field (row : ResultRow) (nField : Z) (nNullValue : Z) : M Z :=
  t ← ResultRow_fieldDataType row nField;
  if t =? SQLITE_NULL then mret (to_int nNullValue)
  else
    vm ← stmt_get (mpParent row) mpVM;
    call (sqlite3_column_int64 vm nField).

Definition ResultRow_getFloatField (row : ResultRow) (nField : Z) (fNullValue : double)
  : M double :=
  t ← ResultRow_fieldDataType row nField;
  if t =? SQLITE_NULL then mret fNullValue
  else
    vm ← stmt_get (mpParent row) mpVM;
    call (sqlite3_column_double vm nField).

Definition ResultRow_getStringField (row : ResultRow) (nField : Z) (szNullValue : cstring)
  : M cstring :=
  t ← ResultRow_fieldDataType row nField;
  if t =? SQLITE_NULL then mret szNullValue
  else
    vm ← stmt_get (mpParent row) mpVM;
    call (sqlite3_column_text vm nField).

(** The [for] loop of [fieldIndex], with [n] columns still to look at. *)
Fixpoint fieldIndex_loop (vm : option sqlite3_stmt) (szField : string) (n : nat) (nField : Z)
  : M Z :=
  match n with
  | O => throw FieldNotFound
  | S n' =>
      name ← call (sqlite3_column_name vm nField);
      match name with
      | None => undefined "strcmp with a null pointer"
      | Some nm =>
          if strcmp szField nm =? 0 then mret nField
          else fieldIndex_loop vm szField n' (nField + 1)
      end
  end.

Definition ResultRow_fieldIndex (row : ResultRow) (szField : cstring) : M Z :=
  vm ← stmt_get (mpParent row) mpVM;
  require vm "mpParent->mpVM";;
  match szField with
  | None => throw (AssertionFailed "szField != 0")
  | Some sz =>
      cols ← stmt_get (mpParent row) mColsInResult;
      fieldIndex_loop vm sz (Z.to_nat cols) 0
  end.

Definition ResultRow_getIntField_name (row : ResultRow) (szField : cstring) (nNullValue : Z)
  : M Z :=
  i ← ResultRow_fieldIndex row szField;
  ResultRow_getIntField row i nNullValue.

Definition ResultRow_getInt64Field_name (row : ResultRow) (szField : cstring) (nNullValue : Z)
  : M Z :=
  i ← ResultRow_fieldIndex row szField;
  ResultRow_getInt64Field row i nNullValue.

Definition ResultRow_getFloatField_name (row : ResultRow) (szField : cstring)
    (fNullValue : double) : M double :=
  i ← ResultRow_fieldIndex row szField;
  ResultRow_getFloatField row i fNullValue.

Definition ResultRow_getStringField_name (row : ResultRow) (szField : cstring)
    (szNullValue : cstring) : M cstring :=
  i ← ResultRow_fieldIndex row szField;
  ResultRow_getStringField row i szNullValue.

(** The default arguments of the header: 0, 0.0 and the empty string. *)
Definition default_nNullValue : Z := 0.

Definition ResultRow_fieldIsNull (row : ResultRow) (nField : Z) : M bool :=
  t ← ResultRow_fieldDataType row nField;
  mret (t =? SQLITE_NULL).

Definition ResultRow_fieldName (row : ResultRow) (nField : Z) : M cstring :=
  vm ← stmt_get (mpParent row) mpVM;
  require vm "mpParent->mpVM";;
  ResultRow_checkIndex row nField;;
  call (sqlite3_column_name vm nField).

(** *** SqlDatabase *)

Definition SqlDatabase_copy_ctor (this db : addr) : M unit :=
  h ← db_get db mpDB;
  db_construct this {| mpDB := h; mnBusyTimeoutMs := 60000 |}.

Definition SqlDatabase_assign (this db : addr) : M addr :=
  h ← db_get db mpDB;
  db_set this with_mpDB h;;
  db_set this with_mnBusyTimeoutMs 60000;;
  mret this.

Definition SqlDatabase_close (this : addr) : M unit :=
  h ← db_get this mpDB;
  if nonnull h then
    s ← call (sqlite3_next_stmt h NULL);
    (if nonnull s then throw StatementsStillOpen else mret tt);;
    result ← call (sqlite3_close h);
    (if negb (result =? SQLITE_OK) then ThrowStatusCodeException result h else mret tt);;
    db_set this with_mpDB NULL
  else mret tt.

(** [~SqlDatabase() { try { close(); } catch (...) {} }] *)
Definition SqlDatabase_dtor (this : addr) : M unit :=
  try_catch_all (SqlDatabase_close this);;
  db_release this.

(** [szTail[0]] *)
Definition first_char (s : string) : ascii :=
  match s with
  | EmptyString => Ascii.zero
  | String c _ => c
  end.

(** The [SqlStatement] a function returns by value is built in the caller's
    storage [ret]. *)
Definition SqlDatabase_sqlCompile (this ret : addr) (szSQL : string) : M unit :=
  h ← db_get this mpDB;
  require h "mpDB";;
  '(result, pVM, szTail) ← call (sqlite3_prepare_v2 h szSQL);
  match szTail with
  | None => throw (AssertionFailed "szTail != 0")
  | Some tail =>
      let extra_statements := negb (Ascii.eqb (first_char tail) Ascii.zero) in
      (if negb (result =? SQLITE_OK) then ThrowStatusCodeException result h else mret tt);;
      (if extra_statements then throw MultipleStatements_compile else mret tt);;
      SqlStatement_ctor ret pVM
  end.

(** [return SqlStatement(pVM).execute();] copy-constructs the result from the
    temporary, which is destroyed afterwards, or while the exception of
    [execute] unwinds. *)
Definition SqlDatabase_sqlQueryVar (this ret : addr) (szSQL : string) (args : list va_arg)
  : M unit :=
  h ← db_get this mpDB;
  require h "mpDB";;
  szSqlFormatted ← call (sqlite3_vmprintf szSQL args);
  match szSqlFormatted with
  | None => throw FormattingFailed
  | Some sql =>
      '(result, pVM, szTail) ← call (sqlite3_prepare_v2 h sql);
      match szTail with
      | None => throw (AssertionFailed "szTail != 0")
      | Some tail =>
          let extra_statements := negb (Ascii.eqb (first_char tail) Ascii.zero) in
          call (sqlite3_free szSqlFormatted);;
          (if negb (result =? SQLITE_OK) then ThrowStatusCodeException result h
           else mret tt);;
          (if extra_statements then throw MultipleStatements_query else mret tt);;
          tmp ← stmt_storage {[ret]};
          SqlStatement_ctor tmp pVM;;
          scoped (SqlStatement_dtor tmp)
            (_ ← SqlStatement_execute tmp;
             SqlStatement_copy_ctor ret tmp)
      end
  end.

(** [sqlQuery(szSQL, ...)]: the variadic arguments as a list; the local
    [result] is the returned object. *)
Definition SqlDatabase_sqlQuery (this ret : addr) (szSQL : string) (args : list va_arg)
  : M unit :=
  SqlDatabase_sqlQueryVar this ret szSQL args.

Definition SqlDatabase_getScalar (this : addr) (szSQL : string) (errorValue : Z) : M Z :=
  q ← stmt_storage ∅;
  SqlDatabase_sqlQuery this q szSQL [];;
  scoped (SqlStatement_dtor q)
    (hasRow ← SqlStatement_hasRow q;
     if negb hasRow then mret errorValue
     else
       row ← SqlStatement_currentRow q;
       n ← ResultRow_numFields row;
       if n <? 1 then mret errorValue
       else
         row' ← SqlStatement_currentRow q;
         ResultRow_getIntField row' 0 default_nNullValue).

(** [sprintf] into [char buf[size]]: writing the characters and the
    terminator past the end of the buffer is undefined. *)
Definition sprintf (size : Z) (fmt : string) (args : list string) : M string :=
  match c_format fmt args with
  | Some out =>
      if Z.of_nat (String.length out) + 1 <=? size then mret out
      else undefined "sprintf wrote past the end of the buffer"
  | None => undefined "sprintf: conversion not modelled"
  end.

Definition tableExists_fmt : string :=
  "SELECT COUNT(*) FROM sqlite_master WHERE type='table' AND name='%s'".

Definition SqlDatabase_tableExists (this : addr) (szTable : string) : M bool :=
  szSQL ← sprintf 128 tableExists_fmt [szTable];
  nRet ← SqlDatabase_getScalar this szSQL (-1);
  mret (nRet >? 0).

(** *** The rest of SqlStatement::ResultRow *)

Definition ResultRow_fieldDeclType (row : ResultRow) (nField : Z) : M cstring :=
  vm ← stmt_get (mpParent row) mpVM;
  require vm "mpParent->mpVM";;
  ResultRow_checkIndex row nField;;
  call (sqlite3_column_decltype vm nField).

(** [getBlobField(int, int&)]: the pointer it returns, with the length it
    writes to [nLen]. *)
Definition ResultRow_getBlobField (row : ResultRow) (nField : Z)
  : M (option (list Byte.byte) * Z) :=
  vm ← stmt_get (mpParent row) mpVM;
  require vm "mpParent->mpVM";;
  ResultRow_checkIndex row nField;;
  nLen ← call (sqlite3_column_bytes vm nField);
  blob ← call (sqlite3_column_blob vm nField);
  mret (blob, nLen).

Definition ResultRow_getBlobField_name (row : ResultRow) (szField : cstring)
  : M (option (list Byte.byte) * Z) :=
  i ← ResultRow_fieldIndex row szField;
  ResultRow_getBlobField row i.

Definition ResultRow_fieldIsNull_name (row : ResultRow) (szField : cstring) : M bool :=
  i ← ResultRow_fieldIndex row szField;
  ResultRow_fieldIsNull row i.

(** *** The rest of SqlDatabase *)

Definition SqlDatabase_sqlExecute (this : addr) (szSQL : string) : M unit :=
  h ← db_get this mpDB;
  require h "mpDB";;
  result ← call (sqlite3_exec h szSQL);
  if negb (result =? SQLITE_OK) then ThrowStatusCodeException result h
  else mret tt.

(** [sqlExec(szSQL, ...)], the variadic arguments as a list. *)
Definition SqlDatabase_sqlExec (this : addr) (szSQL : string) (va : list va_arg) : M unit :=
  h ← db_get this mpDB;
  require h "mpDB";;
  szSqlFormatted ← call (sqlite3_vmprintf szSQL va);
  match szSqlFormatted with
  | None => throw FormattingFailed
  | Some sql =>
      result ← call (sqlite3_exec h sql);
      call (sqlite3_free szSqlFormatted);;
      if negb (result =? SQLITE_OK) then ThrowStatusCodeException result h
      else mret tt
  end.

Definition SqlDatabase_sqlExecVar (this : addr) (szSQL : string) (args : list va_arg)
  : M unit :=
  h ← db_get this mpDB;
  require h "mpDB";;
  szSqlFormatted ← call (sqlite3_vmprintf szSQL args);
  match szSqlFormatted with
  | None => throw FormattingFailed
  | Some sql =>
      result ← call (sqlite3_exec h sql);
      call (sqlite3_free szSqlFormatted);;
      if negb (result =? SQLITE_OK) then ThrowStatusCodeException result h
      else mret tt
  end.

Definition SqlDatabase_numberOfRowsChanged (this : addr) : M Z :=
  h ← db_get this mpDB;
  call (sqlite3_changes h).

Definition SqlDatabase_lastRowId (this : addr) : M Z :=
  h ← db_get this mpDB;
  call (sqlite3_last_insert_rowid h).

Definition SqlDatabase_setBusyTimeout (this : addr) (nMillisecs : Z) : M unit :=
  db_set this with_mnBusyTimeoutMs nMillisecs;;
  h ← db_get this mpDB;
  ms ← db_get this mnBusyTimeoutMs;
  _ ← call (sqlite3_busy_timeout h ms);
  mret tt.

Definition SqlDatabase_interrupt (this : addr) : M unit :=
  h ← db_get this mpDB;
  call (sqlite3_interrupt h).

(** [sqlFormat(formatString, ...)]: [std::string result(pStr)] copies the
    characters up to the terminator; from a null pointer it is undefined. *)
Definition SqlDatabase_sqlFormat (this : addr) (formatString : string) (va : list va_arg)
  : M string :=
  pStr ← call (sqlite3_vmprintf formatString va);
  match pStr with
  | None => undefined "std::string constructed from a null pointer"
  | Some p =>
      call (sqlite3_free pStr);;
      mret (c_str p)
  end.

End Wrapper.

Arguments World : clear implicits.
Arguments M : clear implicits.

(** ** A reference engine

    A small executable stand-in for SQLite3, used to run the wrapper on
    concrete inputs.  A statement is looked up in a catalog of programs (its
    text up to the first [;]); the tail is whatever follows that [;], as
    [sqlite3_prepare_v2] reports it; a program yields its rows one [step] at
    a time and then its final status. *)

Module Ref.

Inductive cell :=
| CInt (n : Z)
| CFloat (d : double)
| CText (s : string)
| CBlob (b : list Byte.byte)
| CNull.

Record program := {
  p_cols : list (string * string);   (* name, declared type *)
  p_params : Z;
  p_rows : list (list cell);
  p_final : Z
}.

Record vm_state := {
  vm_db : sqlite3;
  vm_prog : program;
  vm_pos : nat    (* rows delivered since the last reset *)
}.

Record state := {
  next_handle : positive;
  open_dbs : gset sqlite3;
  vms : gmap sqlite3_stmt vm_state;
  catalog : list (string * program);
  errmsg : string
}.

Definition set_vms (m : gmap sqlite3_stmt vm_state) (s : state) : state :=
  {| next_handle := next_handle s; open_dbs := open_dbs s; vms := m;
     catalog := catalog s; errmsg := errmsg s |}.

Definition set_pos (n : nat) (v : vm_state) : vm_state :=
  {| vm_db := vm_db v; vm_prog := vm_prog v; vm_pos := n |}.

(** First statement and what follows its [;]. *)
Fixpoint split_stmt (sql : string) : string * string :=
  match sql with
  | EmptyString => (EmptyString, EmptyString)
  | String ";" rest => (EmptyString, rest)
  | String c rest => let (a, b) := split_stmt rest in (String c a, b)
  end.

Fixpoint find_program (cat : list (string * program)) (text : string) : option program :=
  match cat with
  | [] => None
  | (t, p) :: cat' => if String.eqb t text then Some p else find_program cat' text
  end.

Definition the_vm (s : state) (vm : option sqlite3_stmt) : option vm_state :=
  match vm with
  | Some h => vms s !! h
  | None => None
  end.

Definition current_cell (s : state) (vm : option sqlite3_stmt) (i : Z) : option cell :=
  match the_vm s vm with
  | Some v =>
      match vm_pos v with
      | O => None
      | S k =>
          match nth_error (p_rows (vm_prog v)) k with
          | Some row => array_read row i
          | None => None
          end
      end
  | None => None
  end.

Definition column_meta (s : state) (vm : option sqlite3_stmt) (i : Z)
  : option (string * string) :=
  match the_vm s vm with
  | Some v => array_read (p_cols (vm_prog v)) i
  | None => None
  end.

Definition bind_status (s : state) (vm : option sqlite3_stmt) (i : Z) : Z :=
  match the_vm s vm with
  | Some v => if (1 <=? i) && (i <=? p_params (vm_prog v)) then 0 else 25
  | None => 21
  end.

Definition stmts_of (s : state) (db : option sqlite3) : list sqlite3_stmt :=
  match db with
  | Some h =>
      List.filter (fun k => match vms s !! k with
                            | Some v => Pos.eqb (vm_db v) h
                            | None => false
                            end)
                  (map_to_list (vms s)).*1
  | None => []
  end.

Definition step (s : state) (vm : option sqlite3_stmt) : Z * state :=
  match vm, the_vm s vm with
  | Some h, Some v =>
      if Nat.ltb (vm_pos v) (length (p_rows (vm_prog v)))
      then (SQLITE_ROW, set_vms (<[h := set_pos (S (vm_pos v)) v]> (vms s)) s)
      else (p_final (vm_prog v), set_vms (<[h := set_pos O v]> (vms s)) s)
  | _, _ => (21, s)
  end.

Definition reset (s : state) (vm : option sqlite3_stmt) : Z * state :=
  match vm, the_vm s vm with
  | Some h, Some v => (0, set_vms (<[h := set_pos O v]> (vms s)) s)
  | _, _ => (0, s)
  end.

Definition finalize (s : state) (vm : option sqlite3_stmt) : Z * state :=
  match vm with
  | Some h => (0, set_vms (delete h (vms s)) s)
  | None => (0, s)
  end.

Definition prepare (s : state) (db : option sqlite3) (zSql : string)
  : (Z * option sqlite3_stmt * cstring) * state :=
  let (text, tail) := split_stmt zSql in
  match db with
  | Some d =>
      if String.eqb text EmptyString then ((0, None, Some tail), s)
      else
        match find_program (catalog s) text with
        | Some p =>
            let h := next_handle s in
            ((0, Some h, Some tail),
             {| next_handle := Pos.succ h; open_dbs := open_dbs s;
                vms := <[h := {| vm_db := d; vm_prog := p; vm_pos := O |}]> (vms s);
                catalog := catalog s; errmsg := errmsg s |})
        | None => ((1, None, Some tail), s)
        end
  | None => ((21, None, None), s)
  end.

Definition close (s : state) (db : option sqlite3) : Z * state :=
  match db with
  | Some d =>
      match stmts_of s db with
      | [] => (0, {| next_handle := next_handle s; open_dbs := open_dbs s ∖ {[d]};
                     vms := vms s; catalog := catalog s; errmsg := errmsg s |})
      | _ :: _ => (5, s)
      end
  | None => (0, s)
  end.

Definition cell_type (c : option cell) : Z :=
  match c with
  | Some (CInt _) => SQLITE_INTEGER
  | Some (CFloat _) => SQLITE_FLOAT
  | Some (CText _) => SQLITE_TEXT
  | Some (CBlob _) => SQLITE_BLOB
  | Some CNull | None => SQLITE_NULL
  end.

Definition cell_int (c : option cell) : Z :=
  match c with
  | Some (CInt n) => n
  | _ => 0
  end.

Definition cell_double (c : option cell) : double :=
  match c with
  | Some (CFloat d) => d
  | _ => PrimFloat.zero
  end.

Definition cell_text (c : option cell) : cstring :=
  match c with
  | Some (CText t) => Some t
  | Some (CInt n) => Some (pretty n)
  | _ => None
  end.

Definition cell_blob (c : option cell) : option (list Byte.byte) :=
  match c with
  | Some (CBlob b) => Some b
  | _ => None
  end.

Definition handle {R} (c : sqlite3_api R) (s : state) : R * state :=
  match c in sqlite3_api R return R * state with
  | sqlite3_errmsg _ => (errmsg s, s)
  | sqlite3_db_handle vm => (vm_db <$> the_vm s vm, s)
  | sqlite3_finalize vm => finalize s vm
  | sqlite3_reset vm => reset s vm
  | sqlite3_step vm => step s vm
  | sqlite3_bind_text vm i _ => (bind_status s vm i, s)
  | sqlite3_bind_int vm i _ => (bind_status s vm i, s)
  | sqlite3_bind_int64 vm i _ => (bind_status s vm i, s)
  | sqlite3_bind_double vm i _ => (bind_status s vm i, s)
  | sqlite3_bind_blob vm i _ _ => (bind_status s vm i, s)
  | sqlite3_bind_null vm i => (bind_status s vm i, s)
  | sqlite3_column_count vm =>
      (match the_vm s vm with
       | Some v => Z.of_nat (length (p_cols (vm_prog v)))
       | None => 0
       end, s)
  | sqlite3_column_type vm i => (cell_type (current_cell s vm i), s)
  | sqlite3_column_int vm i => (cell_int (current_cell s vm i), s)
  | sqlite3_column_int64 vm i => (cell_int (current_cell s vm i), s)
  | sqlite3_column_double vm i => (cell_double (current_cell s vm i), s)
  | sqlite3_column_text vm i => (cell_text (current_cell s vm i), s)
  | sqlite3_column_bytes vm i =>
      (match cell_blob (current_cell s vm i) with
       | Some b => Z.of_nat (length b)
       | None => 0
       end, s)
  | sqlite3_column_blob vm i => (cell_blob (current_cell s vm i), s)
  | sqlite3_column_name vm i => (fst <$> column_meta s vm i, s)
  | sqlite3_column_decltype vm i => (snd <$> column_meta s vm i, s)
  | sqlite3_next_stmt db after =>
      (match after with
       | None => head (stmts_of s db)
       | Some a => head (List.filter (fun k => Pos.ltb a k) (stmts_of s db))
       end, s)
  | sqlite3_close db => close s db
  | sqlite3_prepare_v2 db zSql => prepare s db zSql
  | sqlite3_exec _ _ => (0, s)
  | sqlite3_vmprintf zFormat args =>
      (match args with
       | [] => Some zFormat
       | _ :: _ => None
       end, s)
  | sqlite3_free _ => (tt, s)
  | sqlite3_changes _ => (0, s)
  | sqlite3_last_insert_rowid _ => (0, s)
  | sqlite3_busy_timeout _ _ => (0, s)
  | sqlite3_interrupt _ => (tt, s)
  end.

Definition engine : Engine := {| eng_state := state; eng_call := @handle |}.

End Ref.

(** ** Reading the trace *)

Definition is_step (ev : api_event) : bool :=
  match projT2 ev with
  | sqlite3_step _ => true
  | _ => false
  end.

Definition is_reset (ev : api_event) : bool :=
  match projT2 ev with
  | sqlite3_reset _ => true
  | _ => false
  end.

(** The calls [ThrowStatusCodeException] makes to describe an error. *)
Definition is_report (ev : api_event) : bool :=
  match projT2 ev with
  | sqlite3_errmsg _ | sqlite3_db_handle _ => true
  | _ => false
  end.

Definition count_calls (p : api_event -> bool) (log : list api_event) : nat :=
  length (List.filter p log).


(** What a copy of the statement [st] looks like at address [this]. *)
Definition stmt_copy_of (this : addr) (st : SqlStatement) : SqlStatement :=
  {| mpVM := mpVM st; mBindNext := mBindNext st; mEndOfRows := mEndOfRows st;
     mResult := {| mpParent := this |}; mColsInResult := mColsInResult st |}.





(** Every statement object's row view points back at the object itself. *)
Definition row_views_ok (m : gmap addr SqlStatement) : Prop :=
  map_Forall (fun a st => mpParent (mResult st) = a) m.

(** A computation that keeps [row_views_ok], however it ends. *)
Definition keeps_views {Eng : Engine} {A} (m : M Eng A) : Prop :=
  forall w o w', row_views_ok (w_stmts w) -> m w = (o, w') -> row_views_ok (w_stmts w').

(** The first column, counting from [i], whose name is the C string [szField]. *)
Fixpoint first_match (szField : string) (names : list string) (i : Z) : option Z :=
  match names with
  | [] => None
  | nm :: rest =>
      if String.eqb (c_str szField) (c_str nm) then Some i
      else first_match szField rest (i + 1)
  end.

(** The engine call each bind overload makes for slot [i]; none for [bindSame]. *)
Definition bind_call (vm : option sqlite3_stmt) (i : Z) (v : bind_value)
  : list api_event :=
  match v with
  | BindText szValue => [Called (sqlite3_bind_text vm i szValue)]
  | BindInt nValue => [Called (sqlite3_bind_int vm i nValue)]
  | BindInt64 nValue => [Called (sqlite3_bind_int64 vm i nValue)]
  | BindDouble dValue => [Called (sqlite3_bind_double vm i dValue)]
  | BindBlob blobValue nLen => [Called (sqlite3_bind_blob vm i blobValue nLen)]
  | BindNull => [Called (sqlite3_bind_null vm i)]
  | BindSame => []
  end.

(** The engine's answer to that call ([SQLITE_OK] for [bindSame], which
    asks nothing) and the engine afterwards. *)
Definition bind_reply {Eng : Engine} (vm : option sqlite3_stmt) (i : Z) (v : bind_value)
    (e : eng_state Eng) : Z * eng_state Eng :=
  match v with
  | BindText szValue => eng_call (sqlite3_bind_text vm i szValue) e
  | BindInt nValue => eng_call (sqlite3_bind_int vm i nValue) e
  | BindInt64 nValue => eng_call (sqlite3_bind_int64 vm i nValue) e
  | BindDouble dValue => eng_call (sqlite3_bind_double vm i dValue) e
  | BindBlob blobValue nLen => eng_call (sqlite3_bind_blob vm i blobValue nLen) e
  | BindNull => eng_call (sqlite3_bind_null vm i) e
  | BindSame => (SQLITE_OK, e)
  end.

(** The message of the exception each overload throws when the engine does
    not answer [SQLITE_OK]; [bindSame] has none. *)
Definition bind_error (v : bind_value) : string :=
  match v with
  | BindText _ => "Error binding string param."
  | BindInt _ => "Error binding int param"
  | BindInt64 _ => "Error binding int param"
  | BindDouble _ => "Error binding double param"
  | BindBlob _ _ => "Error binding blob param"
  | BindNull => "Error binding NULL param"
  | BindSame => EmptyString
  end.

Definition is_finalize (ev : api_event) : bool :=
  match projT2 ev with
  | sqlite3_finalize _ => true
  | _ => false
  end.

Definition is_exec (ev : api_event) : bool :=
  match projT2 ev with
  | sqlite3_exec _ _ => true
  | _ => false
  end.

Definition is_free (ev : api_event) : bool :=
  match projT2 ev with
  | sqlite3_free _ => true
  | _ => false
  end.

(** ** Concrete inputs *)

Module Example.

Import Ref.

Definition people : program :=
  {| p_cols := [("id", "INTEGER"); ("name", "TEXT")]%string;
     p_params := 1;
     p_rows := [[CInt 1; CText "Alice"]; [CInt 2; CNull]];
     p_final := SQLITE_DONE |}.

Definition count_none : program :=
  {| p_cols := [("COUNT(*)"%string, EmptyString)];
     p_params := 0;
     p_rows := [[CInt 0]];
     p_final := SQLITE_DONE |}.

Definition no_rows : program :=
  {| p_cols := [("id", "INTEGER")]%string;
     p_params := 0;
     p_rows := [];
     p_final := SQLITE_DONE |}.

(** A query whose second step fails with [SQLITE_CORRUPT]. *)
Definition corrupt : program :=
  {| p_cols := [("id", "INTEGER")]%string;
     p_params := 0;
     p_rows := [[CInt 1]];
     p_final := 11 |}.

Definition s0 : state :=
  {| next_handle := 100;
     open_dbs := {[ 7%positive ]};
     vms := ∅;
     catalog := [ ("SELECT id, name FROM t", people);
                  ("SELECT COUNT(*) FROM t WHERE id=999", count_none);
                  ("SELECT id FROM t WHERE 0", no_rows);
                  ("SELECT id FROM damaged", corrupt) ]%string;
     errmsg := "SQL logic error" |}.

(** One open connection, the object at address 1 holding the handle 7. *)
Definition db1 : SqlDatabase := {| mpDB := Some 7%positive; mnBusyTimeoutMs := 60000 |}.

Definition w0 : World engine :=
  @Build_World engine s0 [] ∅ {[ 1%positive := db1 ]}.

Definition run {A} (m : M engine A) (w : World engine) : World engine := snd (m w).

(** [people] compiled into the statement object at address 2. *)
Definition w_compiled : World engine :=
  run (SqlDatabase_sqlCompile 1%positive 2%positive "SELECT id, name FROM t;") w0.

(** ... and executed: its first row is current. *)
Definition w_executed : World engine :=
  run (SqlStatement_execute 2%positive) w_compiled.

(** ... and advanced to the second row, whose [name] is NULL. *)
Definition w_second : World engine :=
  run (SqlStatement_nextRow 2%positive) w_executed.

(** The compiled statement destroyed again. *)
Definition w_destroyed : World engine :=
  run (SqlStatement_destroy 2%positive) w_compiled.

(** A name of 63 bytes. *)
Definition long_name : string :=
  "aaaaaaaaaaaaaaaaaaaaaaaaaaaaaaaaaaaaaaaaaaaaaaaaaaaaaaaaaaaaaaa".

(** [corrupt] compiled and executed: the next step will fail. *)
Definition w_damaged : World engine :=
  run (SqlStatement_execute 2%positive)
    (run (SqlDatabase_sqlCompile 1%positive 2%positive "SELECT id FROM damaged") w0).

(** A statement object that never had a handle, at address 5. *)
Definition w_empty_stmt : World engine :=
  run (SqlStatement_ctor0 5%positive) w0.

(** The connection object with a null handle. *)
Definition w_closed : World engine :=
  @Build_World engine s0 [] ∅ {[ 1%positive := with_mpDB NULL db1 ]}.

(** The compiled statement after one bind: its cursor is at 2. *)
Definition w_bound : World engine :=
  run (SqlStatement_bind_int 2%positive 5) w_compiled.

(** A second statement object, at address 3, beside the executed one. *)
Definition w_two : World engine :=
  run (SqlDatabase_sqlCompile 1%positive 3%positive "SELECT id FROM t WHERE 0") w_executed.

(** A statement that cannot run because the database is locked by another
    connection: its first step answers [SQLITE_BUSY]. *)
Definition contended : program :=
  {| p_cols := [];
     p_params := 0;
     p_rows := [];
     p_final := SQLITE_BUSY |}.

Definition s_contended : state :=
  {| next_handle := 100;
     open_dbs := {[ 7%positive ]};
     vms := ∅;
     catalog := [ ("UPDATE t SET name='x'", contended) ]%string;
     errmsg := "database is locked" |}.

Definition w_contended : World engine :=
  @Build_World engine s_contended [] ∅ {[ 1%positive := db1 ]}.

End Example.

(** ** An engine that will not close

    The reference engine, except that [sqlite3_close] always answers
    [SQLITE_BUSY] (as SQLite does while a backup or a blob handle is open)
    although no prepared statement is left. *)

Module Stubborn.

Definition handle {R} (c : sqlite3_api R) (s : Ref.state) : R * Ref.state :=
  match c in sqlite3_api R return R * Ref.state with
  | sqlite3_close _ => (SQLITE_BUSY, s)
  | c' => Ref.handle c' s
  end.

Definition engine : Engine := {| eng_state := Ref.state; eng_call := @handle |}.

Definition w0 : World engine :=
  @Build_World engine Example.s0 [] ∅ {[ 1%positive := Example.db1 ]}.

End Stubborn.

(** ** Properties of the wrapper *)

(** Symbolic execution: unfold the monad and the member accesses, then
    resolve store lookups and engine answers from the hypotheses. *)
Ltac wunfold :=
  unfold require in *; unfold assert_ in *;
  unfold mbind, mret, M_bind, M_ret, throw, undefined,
    stmt_get, stmt_set, stmt_construct, stmt_release,
    db_get, db_set, db_construct, db_release, call, set_stmts, set_dbs in *.

Ltac wreduce :=
  cbn [w_eng w_log w_stmts w_dbs nonnull negb fst snd
       mpVM mBindNext mEndOfRows mResult mColsInResult mpParent
       mpDB mnBusyTimeoutMs
       with_mpVM with_mBindNext with_mEndOfRows with_mResult with_mColsInResult
       with_mpDB with_mnBusyTimeoutMs] in *.

Ltac wstep :=
  first
    [ rewrite lookup_insert_eq
    | rewrite lookup_insert_ne by congruence
    | match goal with
      | H : ?m !! ?k = _ |- context [?m !! ?k] => rewrite H
      | H : eng_call ?c ?e = _ |- context [eng_call ?c ?e] => rewrite H
      | H : ?x = _ |- context [match ?x with _ => _ end] => rewrite H
      | H : (?a =? ?b) = _ |- context [?a =? ?b] => rewrite H
      end
    | rewrite Z.eqb_refl
    | progress wreduce ].

Ltac wrun := wunfold; wreduce; repeat wstep.

Ltac conjs := repeat match goal with |- _ /\ _ => split end.

(** Side conditions about an outcome and the trace it leaves. *)
Ltac tsce_side :=
  first
    [ reflexivity
    | congruence
    | solve [intros; lia]
    | solve [intros; eexists; reflexivity]
    | solve [exists []; rewrite app_nil_r; done]
    | solve [eexists; split; [reflexivity | done]]
    | idtac ].

Section Properties.

Context {Eng : Engine}.

Implicit Types (w : World Eng) (this : addr) (st : SqlStatement).

(** [ThrowStatusCodeException] never returns, touches no wrapper object, and
    throws a typed exception for every status code that is not negative. *)
Lemma ThrowStatusCodeException_throws (statusCode : Z) (db : option sqlite3) w :
  exists o w',
    ThrowStatusCodeException statusCode db w = (o, w') /\
    w_stmts w' = w_stmts w /\ w_dbs w' = w_dbs w /\
    (forall u, o <> Ret u) /\
    (0 <= statusCode -> exists ex, o = Throw ex) /\
    (statusCode = SQLITE_BUSY -> o = Throw SqlDatabaseBusyException) /\
    (exists extra, w_log w' = w_log w ++ extra /\ forallb is_report extra = true).
Proof.
  unfold ThrowStatusCodeException.
  destruct (Z.eqb_spec statusCode SQLITE_BUSY) as [->|Hbusy].
  { wrun. eexists _, _. split; [reflexivity|]. wreduce. conjs; tsce_side. }
  destruct (Z.eqb_spec statusCode SQLITE_ERROR) as [->|Herr].
  { wrun. destruct (eng_call (sqlite3_errmsg db) (w_eng w)) as [m e'] eqn:E.
    eexists _, _. split; [reflexivity|]. wreduce. conjs; tsce_side. }
  destruct (Z.ltb_spec statusCode (Z.of_nat (length code_descr))) as [Hlt|Hge].
  - unfold array_read.
    destruct (Z.ltb_spec statusCode 0) as [Hneg|Hpos].
    + wrun. eexists _, _. split; [reflexivity|]. wreduce. conjs; tsce_side.
    + destruct (nth_error code_descr (Z.to_nat statusCode)) as [d|] eqn:Hd.
      * wrun. eexists _, _. split; [reflexivity|]. wreduce. conjs; tsce_side.
      * apply nth_error_None in Hd. lia.
  - wrun. eexists _, _. split; [reflexivity|]. wreduce. conjs; tsce_side.
Qed.

Lemma ThrowStatusCodeException_vm_throws (statusCode : Z) (vm : option sqlite3_stmt) w :
  exists o w',
    ThrowStatusCodeException_vm statusCode vm w = (o, w') /\
    w_stmts w' = w_stmts w /\ w_dbs w' = w_dbs w /\
    (forall u, o <> Ret u) /\
    (0 <= statusCode -> exists ex, o = Throw ex) /\
    (statusCode = SQLITE_BUSY -> o = Throw SqlDatabaseBusyException) /\
    (exists extra, w_log w' = w_log w ++ extra /\ forallb is_report extra = true).
Proof.
  unfold ThrowStatusCodeException_vm. wunfold.
  destruct (eng_call (sqlite3_db_handle vm) (w_eng w)) as [db e1] eqn:Hdb.
  match goal with
  | |- context [ThrowStatusCodeException statusCode db ?w1] =>
      destruct (ThrowStatusCodeException_throws statusCode db w1)
        as (o & w' & E & Hs & Hd & Hnr & Hthrow & Hbusy & extra & Hlog & Hrep)
  end.
  rewrite E. exists o, w'. wreduce.
  assert (Hextra : exists extra', w_log w' = w_log w ++ extra' /\
                                  forallb is_report extra' = true).
  { exists (Called (sqlite3_db_handle vm) :: extra).
    rewrite Hlog, <- app_assoc. split; [reflexivity|]. cbn. exact Hrep. }
  destruct o; repeat split; eauto; congruence.
Qed.

(** ** nextRow *)

(** C10: when the step made by [nextRow] reports an error status, the call
    does not return normally (a typed exception for every status that is not
    negative), and the statement object is left exactly as it was: in
    particular [hasRow()] is still true. *)
Theorem nextRow_error_keeps_row w this st vm result e' :
  w_stmts w !! this = Some st ->
  mpVM st = Some vm ->
  mEndOfRows st = false ->
  eng_call (sqlite3_step (Some vm)) (w_eng w) = (result, e') ->
  result <> SQLITE_DONE ->
  result <> SQLITE_ROW ->
  exists o w',
    SqlStatement_nextRow this w = (o, w') /\
    (forall b, o <> Ret b) /\
    (0 <= result -> exists ex, o = Throw ex) /\
    (result = SQLITE_BUSY -> o = Throw SqlDatabaseBusyException) /\
    w_stmts w' = w_stmts w /\
    w_dbs w' = w_dbs w /\
    SqlStatement_hasRow this w' = (Ret true, w').
Proof.
  intros Hst Hvm Heor Hstep Hdone Hrow.
  destruct st as [vm0 bn eor res cols]. cbn in Hvm, Heor. subst vm0 eor.
  apply Z.eqb_neq in Hdone, Hrow.
  unfold SqlStatement_nextRow, SqlStatement_hasRow. wrun.
  match goal with
  | |- context [ThrowStatusCodeException_vm result (Some vm) ?w1] =>
      destruct (ThrowStatusCodeException_vm_throws result (Some vm) w1)
        as (o & w' & E & Hs & Hd & Hnr & Hthrow & Hbusy & _)
  end.
  rewrite E. wreduce.
  destruct o as [u|ex|why].
  - exfalso. eapply Hnr; reflexivity.
  - exists (Throw ex), w'. rewrite Hs, Hst. cbn.
    repeat split; eauto; try congruence.
    intros Hb. specialize (Hbusy Hb). congruence.
  - exists (Undefined why), w'. rewrite Hs, Hst. cbn.
    repeat split; eauto; try congruence.
    + intros Hpos. destruct (Hthrow Hpos); congruence.
    + intros Hb. specialize (Hbusy Hb). congruence.
Qed.

(** ** execute *)

Lemma count_calls_app p (l1 l2 : list api_event) :
  count_calls p (l1 ++ l2) = (count_calls p l1 + count_calls p l2)%nat.
Proof. unfold count_calls. rewrite List.filter_app, length_app. reflexivity. Qed.

Lemma report_is_no_step (l : list api_event) :
  forallb is_report l = true ->
  count_calls is_step l = 0%nat /\ count_calls is_reset l = 0%nat.
Proof.
  induction l as [|[R c] l IH]; [done|].
  cbn [forallb]. intros [Hc Hl]%andb_true_iff.
  destruct (IH Hl) as [IH1 IH2].
  unfold count_calls in *.
  destruct c; cbn in Hc |- *; try discriminate; auto.
Qed.


(** ** Status codes and their descriptions *)

(** A status inside the table (other than the two handled before it) is
    reported with its symbolic name. *)
Lemma ThrowStatusCodeException_named (statusCode : Z) (db : option sqlite3) w :
  0 <= statusCode < 27 ->
  statusCode <> SQLITE_BUSY ->
  statusCode <> SQLITE_ERROR ->
  exists d,
    nth_error code_descr (Z.to_nat statusCode) = Some d /\
    ThrowStatusCodeException statusCode db w =
      (Throw (SqlDatabaseException
                (("Result code " +:+ pretty statusCode) +:+ " (" +:+ d +:+ ")")), w).
Proof.
  intros Hrange Hbusy Herr.
  apply Z.eqb_neq in Hbusy, Herr.
  unfold ThrowStatusCodeException, array_read. rewrite Hbusy, Herr.
  destruct (Z.ltb_spec statusCode (Z.of_nat (length code_descr))) as [_|Hge];
    [|cbn in Hge; lia].
  destruct (Z.ltb_spec statusCode 0) as [Hneg|_]; [lia|].
  destruct (nth_error code_descr (Z.to_nat statusCode)) as [d|] eqn:Hd.
  - exists d. split; reflexivity.
  - apply nth_error_None in Hd. cbn in Hd. lia.
Qed.

(** A status past the end of the table is reported by its number alone. *)
Lemma ThrowStatusCodeException_bare (statusCode : Z) (db : option sqlite3) w :
  27 <= statusCode ->
  ThrowStatusCodeException statusCode db w =
    (Throw (SqlDatabaseException ("Result code " +:+ pretty statusCode)), w).
Proof.
  intros Hge.
  unfold ThrowStatusCodeException.
  destruct (Z.eqb_spec statusCode SQLITE_BUSY) as [E|_]; [unfold SQLITE_BUSY in E; lia|].
  destruct (Z.eqb_spec statusCode SQLITE_ERROR) as [E|_]; [unfold SQLITE_ERROR in E; lia|].
  destruct (Z.ltb_spec statusCode (Z.of_nat (length code_descr))) as [Hlt|_];
    [cbn in Hlt; lia|].
  reflexivity.
Qed.

(** C8: the guard before [code_descr[statusCode]] only tests the upper
    bound.  A negative status code passes it, so the table is read before its
    first entry: no description is produced and no exception is thrown. *)
Theorem ThrowStatusCodeException_negative_reads_outside
    (statusCode : Z) (db : option sqlite3) w :
  statusCode < 0 ->
  (statusCode <? Z.of_nat (length code_descr)) = true /\
  array_read code_descr statusCode = None /\
  ThrowStatusCodeException statusCode db w =
    (Undefined "code_descr[statusCode] read outside the array", w).
Proof.
  intros Hneg.
  assert (Hguard : (statusCode <? Z.of_nat (length code_descr)) = true)
    by (apply Z.ltb_lt; cbn; lia).
  assert (Hread : array_read code_descr statusCode = None)
    by (unfold array_read; apply Z.ltb_lt in Hneg; rewrite Hneg; reflexivity).
  conjs; auto.
  unfold ThrowStatusCodeException.
  destruct (Z.eqb_spec statusCode SQLITE_BUSY) as [E|_]; [unfold SQLITE_BUSY in E; lia|].
  destruct (Z.eqb_spec statusCode SQLITE_ERROR) as [E|_]; [unfold SQLITE_ERROR in E; lia|].
  rewrite Hguard, Hread. reflexivity.
Qed.

(** ** tableExists and its buffer *)

Lemma string_length_app (s1 s2 : string) :
  String.length (s1 +:+ s2) = (String.length s1 + String.length s2)%nat.
Proof. induction s1 as [|c s1 IH]; simpl; [reflexivity | f_equal; exact IH]. Qed.

Lemma c_format_tableExists (szTable : string) :
  c_format tableExists_fmt [szTable] =
    Some ("SELECT COUNT(*) FROM sqlite_master WHERE type='table' AND name='"
          +:+ c_str szTable +:+ "'").
Proof. reflexivity. Qed.

Lemma tableExists_written (szTable out : string) :
  c_format tableExists_fmt [szTable] = Some out ->
  Z.of_nat (String.length out) + 1 = 66 + strlen szTable.
Proof.
  rewrite c_format_tableExists. intros [= <-].
  rewrite !string_length_app. unfold strlen. cbn [String.length]. lia.
Qed.

(** C9: the query text without the name takes 66 bytes of [szSQL[128]],
    terminator included; [sprintf] stays inside the buffer exactly when the
    name has at most 62 bytes, and [tableExists] makes no check: with a longer
    name the write runs past the end of the buffer. *)
Theorem tableExists_buffer_bound :
  (exists fixed,
     c_format tableExists_fmt [EmptyString] = Some fixed /\
     Z.of_nat (String.length fixed) + 1 = 66) /\
  forall (this : addr) (szTable : string) w,
    ((exists out, sprintf 128 tableExists_fmt [szTable] w = (Ret out, w))
       <-> strlen szTable <= 62) /\
    (62 < strlen szTable ->
       SqlDatabase_tableExists this szTable w =
         (Undefined "sprintf wrote past the end of the buffer", w)).
Proof.
  split.
  { eexists. split; reflexivity. }
  intros this szTable w.
  pose proof (c_format_tableExists szTable) as Hfmt.
  pose proof (tableExists_written szTable _ Hfmt) as Hlen.
  split; [split|].
  - intros [out Hout]. unfold sprintf in Hout. rewrite Hfmt in Hout.
    destruct (Z.leb_spec
      (Z.of_nat (String.length
         ("SELECT COUNT(*) FROM sqlite_master WHERE type='table' AND name='"
          +:+ c_str szTable +:+ "'")) + 1) 128) as [Hle|Hgt].
    + lia.
    + discriminate Hout.
  - intros Hle. unfold sprintf. rewrite Hfmt.
    destruct (Z.leb_spec
      (Z.of_nat (String.length
         ("SELECT COUNT(*) FROM sqlite_master WHERE type='table' AND name='"
          +:+ c_str szTable +:+ "'")) + 1) 128) as [_|Hgt].
    + eexists. reflexivity.
    + lia.
  - intros Hlong. unfold SqlDatabase_tableExists, sprintf. rewrite Hfmt.
    destruct (Z.leb_spec
      (Z.of_nat (String.length
         ("SELECT COUNT(*) FROM sqlite_master WHERE type='table' AND name='"
          +:+ c_str szTable +:+ "'")) + 1) 128) as [Hle|_].
    + lia.
    + reflexivity.
Qed.

(** ** close and the destructor of SqlDatabase *)



(** ** Copying *)

(** Destroying a statement whose handle is null makes no engine call. *)
Lemma dtor_of_shell w this st :
  w_stmts w !! this = Some st ->
  mpVM st = NULL ->
  exists w',
    SqlStatement_dtor this w = (Ret tt, w') /\
    w_eng w' = w_eng w /\ w_log w' = w_log w /\
    w_stmts w' = delete this (w_stmts w).
Proof.
  intros Hst Hvm. destruct st as [vm bn eor res cols]. cbn in Hvm. subst vm.
  unfold SqlStatement_dtor, SqlStatement_destroy. wrun.
  eexists. split; [reflexivity|]. wreduce. conjs; try reflexivity.
  apply delete_insert_eq.
Qed.

Lemma SqlStatement_copy_ctor_spec w this rStatement st :
  w_stmts w !! rStatement = Some st ->
  this <> rStatement ->
  SqlStatement_copy_ctor this rStatement w =
    (Ret tt,
     set_stmts (<[rStatement := with_mpVM NULL st]>
                  (<[this := stmt_copy_of this st]> (w_stmts w))) w).
Proof.
  intros Hst Hne. unfold SqlStatement_copy_ctor, stmt_copy_of. wrun. reflexivity.
Qed.

Lemma SqlStatement_assign_spec w this rStatement dst st :
  w_stmts w !! this = Some dst ->
  w_stmts w !! rStatement = Some st ->
  this <> rStatement ->
  let released :=
    if nonnull (mpVM dst)
    then (snd (eng_call (sqlite3_finalize (mpVM dst)) (w_eng w)),
          [Called (sqlite3_finalize (mpVM dst))])
    else (w_eng w, []) in
  SqlStatement_assign this rStatement w =
    (Ret this,
     {| w_eng := fst released; w_log := w_log w ++ snd released;
        w_stmts := <[rStatement := with_mpVM NULL st]>
                     (<[this := with_mResult {| mpParent := this |}
                                  (stmt_copy_of this st)]> (w_stmts w));
        w_dbs := w_dbs w |}).
Proof.
  intros Hdst Hst Hne released. subst released.
  destruct dst as [vm bn eor res cols]. cbn [mpVM].
  unfold SqlStatement_assign, SqlStatement_destroy, stmt_copy_of.
  destruct vm as [old|]; cbn [nonnull].
  - destruct (eng_call (sqlite3_finalize (Some old)) (w_eng w)) as [r e1] eqn:Hfin.
    wrun. rewrite !insert_insert_eq. reflexivity.
  - wrun. rewrite !insert_insert_eq, app_nil_r. reflexivity.
Qed.

Lemma SqlDatabase_copy_ctor_spec w this db d :
  w_dbs w !! db = Some d ->
  SqlDatabase_copy_ctor this db w =
    (Ret tt,
     set_dbs (<[this := {| mpDB := mpDB d; mnBusyTimeoutMs := 60000 |}]> (w_dbs w)) w).
Proof. intros Hd. unfold SqlDatabase_copy_ctor. wrun. reflexivity. Qed.

Lemma SqlDatabase_assign_spec w this db dst d :
  w_dbs w !! this = Some dst ->
  w_dbs w !! db = Some d ->
  SqlDatabase_assign this db w =
    (Ret this,
     set_dbs (<[this := {| mpDB := mpDB d; mnBusyTimeoutMs := 60000 |}]> (w_dbs w)) w).
Proof.
  intros Hdst Hd. unfold SqlDatabase_assign. wrun.
  rewrite !insert_insert_eq. reflexivity.
Qed.

(** C1, as the code has it.  Copying a statement from a distinct source
    (constructor or assignment) moves the native handle to the destination
    and nulls the source, whose destruction then makes no engine call.
    Copying a database connection copies the handle to the destination and
    leaves the source as it was, still holding the handle. *)
Theorem copy_ownership w this src :
  this <> src ->
  (forall st,
     w_stmts w !! src = Some st ->
     exists w',
       SqlStatement_copy_ctor this src w = (Ret tt, w') /\
       mpVM <$> w_stmts w' !! this = Some (mpVM st) /\
       mpVM <$> w_stmts w' !! src = Some NULL /\
       w_eng w' = w_eng w /\ w_log w' = w_log w /\
       exists w'', SqlStatement_dtor src w' = (Ret tt, w'') /\
                   w_eng w'' = w_eng w' /\ w_log w'' = w_log w' /\
                   mpVM <$> w_stmts w'' !! this = Some (mpVM st)) /\
  (forall dst st,
     w_stmts w !! this = Some dst ->
     w_stmts w !! src = Some st ->
     exists w',
       SqlStatement_assign this src w = (Ret this, w') /\
       mpVM <$> w_stmts w' !! this = Some (mpVM st) /\
       mpVM <$> w_stmts w' !! src = Some NULL /\
       exists w'', SqlStatement_dtor src w' = (Ret tt, w'') /\
                   w_eng w'' = w_eng w' /\ w_log w'' = w_log w' /\
                   mpVM <$> w_stmts w'' !! this = Some (mpVM st)) /\
  (forall d,
     w_dbs w !! src = Some d ->
     exists w',
       SqlDatabase_copy_ctor this src w = (Ret tt, w') /\
       w_dbs w' !! this = Some {| mpDB := mpDB d; mnBusyTimeoutMs := 60000 |} /\
       w_dbs w' !! src = Some d /\
       w_eng w' = w_eng w /\ w_log w' = w_log w) /\
  (forall dst d,
     w_dbs w !! this = Some dst ->
     w_dbs w !! src = Some d ->
     exists w',
       SqlDatabase_assign this src w = (Ret this, w') /\
       w_dbs w' !! this = Some {| mpDB := mpDB d; mnBusyTimeoutMs := 60000 |} /\
       w_dbs w' !! src = Some d /\
       w_eng w' = w_eng w /\ w_log w' = w_log w).
Proof.
  intros Hne. conjs.
  - intros st Hst.
    rewrite (SqlStatement_copy_ctor_spec _ _ _ _ Hst Hne).
    eexists. split; [reflexivity|]. unfold set_stmts. cbn [w_stmts w_eng w_log].
    rewrite lookup_insert_ne, !lookup_insert_eq by congruence.
    conjs; try reflexivity.
    edestruct (dtor_of_shell
      {| w_eng := w_eng w; w_log := w_log w;
         w_stmts := <[src := with_mpVM NULL st]>
                      (<[this := stmt_copy_of this st]> (w_stmts w));
         w_dbs := w_dbs w |} src (with_mpVM NULL st))
      as (w'' & Hrun & He & Hl & Hs).
    { cbn [w_stmts]. apply lookup_insert_eq. }
    { reflexivity. }
    exists w''. rewrite Hrun, He, Hl, Hs. cbn [w_stmts].
    rewrite lookup_delete_ne, lookup_insert_ne, lookup_insert_eq by congruence.
    conjs; reflexivity.
  - intros dst st Hdst Hst.
    rewrite (SqlStatement_assign_spec _ _ _ _ _ Hdst Hst Hne).
    eexists. split; [reflexivity|]. cbn [w_stmts w_eng w_log].
    rewrite lookup_insert_ne, !lookup_insert_eq by congruence.
    conjs; try reflexivity.
    match goal with
    | |- context [SqlStatement_dtor src ?w1] =>
        edestruct (dtor_of_shell w1 src (with_mpVM NULL st))
          as (w'' & Hrun & He & Hl & Hs)
    end.
    { cbn [w_stmts]. apply lookup_insert_eq. }
    { reflexivity. }
    exists w''. rewrite Hrun, He, Hl, Hs. cbn [w_stmts].
    rewrite lookup_delete_ne, lookup_insert_ne, lookup_insert_eq by congruence.
    conjs; reflexivity.
  - intros d Hd.
    rewrite (SqlDatabase_copy_ctor_spec _ _ _ _ Hd).
    eexists. split; [reflexivity|]. unfold set_dbs. cbn [w_dbs w_eng w_log].
    rewrite lookup_insert_eq, lookup_insert_ne by congruence.
    conjs; auto.
  - intros dst d Hdst Hd.
    rewrite (SqlDatabase_assign_spec _ _ _ _ _ Hdst Hd).
    eexists. split; [reflexivity|]. unfold set_dbs. cbn [w_dbs w_eng w_log].
    rewrite lookup_insert_eq, lookup_insert_ne by congruence.
    conjs; auto.
Qed.

(** ** Binding the first parameter again *)

(** A statement on which [execute] returned has a live handle and its bind
    cursor at 1. *)
Lemma execute_returned w0 this a w :
  SqlStatement_execute this w0 = (Ret a, w) ->
  exists st vm,
    w_stmts w !! this = Some st /\ mpVM st = Some vm /\ mBindNext st = 1.
Proof.
  unfold SqlStatement_execute. wunfold.
  destruct (w_stmts w0 !! this) as [[vm bn eor res cols]|] eqn:Hst; [|discriminate].
  wreduce. destruct vm as [vm|]; wreduce; [|discriminate].
  rewrite Hst. wreduce. rewrite lookup_insert_eq. wreduce.
  destruct eor; wreduce.
  - destruct (eng_call (sqlite3_step (Some vm)) (w_eng w0)) as [result e1].
    destruct (result =? SQLITE_DONE); [|destruct (result =? SQLITE_ROW)].
    + wrun. intros [= <- <-]. wreduce. rewrite lookup_insert_eq.
      eexists _, _. conjs; reflexivity.
    + wrun. destruct (eng_call (sqlite3_column_count (Some vm)) e1) as [n e2].
      wrun. intros [= <- <-]. wreduce. rewrite lookup_insert_eq.
      eexists _, _. conjs; reflexivity.
    + match goal with
      | |- context [ThrowStatusCodeException_vm result (Some vm) ?w1] =>
          destruct (ThrowStatusCodeException_vm_throws result (Some vm) w1)
            as (o & w' & E & _ & _ & Hnret & _)
      end.
      rewrite E. destruct o; try discriminate. exfalso. eapply Hnret; reflexivity.
  - destruct (eng_call (sqlite3_reset (Some vm)) (w_eng w0)) as [r0 e0].
    wreduce.
    destruct (eng_call (sqlite3_step (Some vm)) e0) as [result e1].
    destruct (result =? SQLITE_DONE); [|destruct (result =? SQLITE_ROW)].
    + wrun. intros [= <- <-]. wreduce. rewrite lookup_insert_eq.
      eexists _, _. conjs; reflexivity.
    + wrun. destruct (eng_call (sqlite3_column_count (Some vm)) e1) as [n e2].
      wrun. intros [= <- <-]. wreduce. rewrite lookup_insert_eq.
      eexists _, _. conjs; reflexivity.
    + match goal with
      | |- context [ThrowStatusCodeException_vm result (Some vm) ?w1] =>
          destruct (ThrowStatusCodeException_vm_throws result (Some vm) w1)
            as (o & w' & E & _ & _ & Hnret & _)
      end.
      rewrite E. destruct o; try discriminate. exfalso. eapply Hnret; reflexivity.
Qed.

(** With the cursor at 1, every bind overload resets the engine statement
    and clears the result state, whether or not the engine accepts the value. *)
Lemma bind_first_slot w this st vm (v : bind_value) :
  w_stmts w !! this = Some st ->
  mpVM st = Some vm ->
  mBindNext st = 1 ->
  exists o w' rest,
    SqlStatement_bind_overload this v w = (o, w') /\
    (forall u, o <> Undefined u) /\
    w_log w' = w_log w ++ Called (sqlite3_reset (Some vm)) :: rest /\
    w_stmts w' =
      <[this := {| mpVM := Some vm; mBindNext := 2; mEndOfRows := true;
                   mResult := mResult st; mColsInResult := 0 |}]> (w_stmts w).
Proof.
  intros Hst Hvm Hbn. destruct st as [vm0 bn eor res cols]. cbn in Hvm, Hbn. subst.
  destruct (eng_call (sqlite3_reset (Some vm)) (w_eng w)) as [r0 e0] eqn:Hreset.
  destruct v; cbn [SqlStatement_bind_overload];
    unfold SqlStatement_bind_text, SqlStatement_bind_int, SqlStatement_bind_int64,
      SqlStatement_bind_double, SqlStatement_bind_blob, SqlStatement_bindNull,
      SqlStatement_bindSame, SqlStatement_onBind, mBindNext_post_incr;
    wrun; change (1 =? INT_MAX) with false; wrun;
    try match goal with
        | |- context [eng_call ?c e0] => destruct (eng_call c e0) as [r e1] eqn:Hbind
        end;
    wrun; try destruct (r =? SQLITE_OK); wrun;
    rewrite ?insert_insert_eq; change (1 + 1) with 2;
    eexists _, _, _; (split; [reflexivity|]); wreduce;
    rewrite <- ?app_assoc; (conjs; [congruence | reflexivity | reflexivity]).
Qed.

(** C2, as the code has it.  After [execute] has returned, binding again
    (any overload) leaves the statement without a current row and with a
    column count of 0.  [currentRow()] then throws [InvalidState], and so does
    [currentRow().numFields()]; [numFields()] on a row view of the statement
    returns 0. *)
Theorem rebind_discards_result w0 this a w (v : bind_value) :
  SqlStatement_execute this w0 = (Ret a, w) ->
  exists o w',
    SqlStatement_bind_overload this v w = (o, w') /\
    (exists st', w_stmts w' !! this = Some st' /\
                 mEndOfRows st' = true /\ mColsInResult st' = 0) /\
    SqlStatement_hasRow this w' = (Ret false, w') /\
    SqlStatement_currentRow this w' = (Throw InvalidState, w') /\
    (row ← SqlStatement_currentRow this; ResultRow_numFields row) w'
      = (Throw InvalidState, w') /\
    ResultRow_numFields {| mpParent := this |} w' = (Ret 0, w').
Proof.
  intros Hexec.
  destruct (execute_returned _ _ _ _ Hexec) as (st & vm & Hst & Hvm & Hbn).
  destruct (bind_first_slot w this st vm v Hst Hvm Hbn)
    as (o & w' & rest & Hrun & _ & _ & Hstmts).
  exists o, w'. split; [exact Hrun|].
  assert (Hlook : w_stmts w' !! this =
                  Some {| mpVM := Some vm; mBindNext := 2; mEndOfRows := true;
                          mResult := mResult st; mColsInResult := 0 |})
    by (rewrite Hstmts; apply lookup_insert_eq).
  conjs.
  - eexists. split; [exact Hlook|]. split; reflexivity.
  - unfold SqlStatement_hasRow. wrun. reflexivity.
  - unfold SqlStatement_currentRow. wrun. reflexivity.
  - unfold SqlStatement_currentRow. wrun. reflexivity.
  - unfold ResultRow_numFields. wrun. reflexivity.
Qed.

(** ** sqlCompile and the tail of the SQL text *)

Lemma first_char_zero_iff (s : string) :
  first_char s = Ascii.zero <-> c_str s = EmptyString.
Proof.
  destruct s as [|c s]; cbn; [tauto|].
  destruct (Ascii.eqb_spec c Ascii.zero) as [->|Hne]; split; intros H;
    try reflexivity; try discriminate; congruence.
Qed.



(** ** Typed getters *)

Implicit Types (row : ResultRow).



















(** ** sqlQuery and getScalar *)






End Properties.

(** ** The theorems at concrete inputs *)

Lemma nextRow_error_keeps_row_witness :
  exists o w',
    SqlStatement_nextRow 2%positive Example.w_damaged = (o, w') /\
    (forall b, o <> Ret b) /\
    (0 <= 11 -> exists ex, o = Throw ex) /\
    (11 = SQLITE_BUSY -> o = Throw SqlDatabaseBusyException) /\
    w_stmts w' = w_stmts Example.w_damaged /\
    w_dbs w' = w_dbs Example.w_damaged /\
    SqlStatement_hasRow 2%positive w' = (Ret true, w').
Proof.
  eapply (nextRow_error_keeps_row (Eng := Ref.engine) Example.w_damaged 2%positive
            {| mpVM := Some 100%positive; mBindNext := 1; mEndOfRows := false;
               mResult := {| mpParent := 2%positive |}; mColsInResult := 1 |}
            100%positive 11).
  - vm_compute. reflexivity.
  - reflexivity.
  - reflexivity.
  - vm_compute. reflexivity.
  - vm_compute. congruence.
  - vm_compute. congruence.
Defined.


Lemma ThrowStatusCodeException_negative_reads_outside_witness :
  -1 < 0 /\
  ThrowStatusCodeException (-1) NULL Example.w0 =
    (Undefined "code_descr[statusCode] read outside the array", Example.w0).
Proof.
  split; [lia|].
  apply (ThrowStatusCodeException_negative_reads_outside (Eng := Ref.engine)
           (-1) NULL Example.w0).
  lia.
Defined.

Lemma tableExists_buffer_bound_witness :
  62 < strlen Example.long_name /\
  SqlDatabase_tableExists 1%positive Example.long_name Example.w0 =
    (Undefined "sprintf wrote past the end of the buffer", Example.w0).
Proof.
  split; [vm_compute; reflexivity|].
  apply (proj2 (proj2 (tableExists_buffer_bound (Eng := Ref.engine))
                  1%positive Example.long_name Example.w0)).
  vm_compute. reflexivity.
Defined.


Lemma copy_ownership_witness :
  3%positive <> 2%positive /\
  exists w',
    SqlStatement_copy_ctor 3%positive 2%positive Example.w_executed = (Ret tt, w') /\
    mpVM <$> w_stmts w' !! 3%positive = Some (Some 100%positive) /\
    mpVM <$> w_stmts w' !! 2%positive = Some NULL.
Proof.
  assert (Hne : 3%positive <> 2%positive) by discriminate.
  split; [exact Hne|].
  destruct (copy_ownership (Eng := Ref.engine) Example.w_executed
              3%positive 2%positive Hne) as (Hcopy & _).
  edestruct Hcopy as (w' & Hrun & Hdst & Hsrc & _).
  { vm_compute. reflexivity. }
  exists w'. split; [exact Hrun|]. split; [exact Hdst|exact Hsrc].
Defined.

Lemma rebind_discards_result_witness :
  exists o w',
    SqlStatement_bind_overload 2%positive (BindInt 5) Example.w_executed = (o, w') /\
    SqlStatement_currentRow 2%positive w' = (Throw InvalidState, w') /\
    ResultRow_numFields {| mpParent := 2%positive |} w' = (Ret 0, w').
Proof.
  edestruct (rebind_discards_result (Eng := Ref.engine) Example.w_compiled 2%positive
               2%positive Example.w_executed (BindInt 5))
    as (o & w' & Hrun & _ & _ & Hcur & _ & Hnum).
  { vm_compute. reflexivity. }
  exists o, w'. split; [exact Hrun|]. split; [exact Hcur|exact Hnum].
Defined.




(** ** Where the code departs from the specification *)

(** C1: copying a database connection does not null out the source.  After
    the copy the source still holds the handle, and its destructor closes it. *)
Lemma SqlDatabase_copy_keeps_source_handle :
  let w1 := Example.run (SqlDatabase_copy_ctor 2%positive 1%positive) Example.w0 in
  mpDB <$> w_dbs w1 !! 2%positive = Some (Some 7%positive) /\
  mpDB <$> w_dbs w1 !! 1%positive = Some (Some 7%positive) /\
  mpDB <$> w_dbs w1 !! 1%positive <> Some NULL /\
  w_log (Example.run (SqlDatabase_dtor 1%positive) w1) =
    [Called (sqlite3_next_stmt (Some 7%positive) NULL);
     Called (sqlite3_close (Some 7%positive))].
Proof. vm_compute. repeat split; try reflexivity. discriminate. Qed.

(** C2: after [execute] delivered a row of two columns and parameter 1 was
    bound again, [numFields()] on the row view of the statement returns 0; it
    does not throw. *)
Lemma numFields_after_rebind_returns_zero :
  let row := {| mpParent := 2%positive |} in
  let w2 := Example.run (SqlStatement_bind_int 2%positive 5) Example.w_executed in
  fst (ResultRow_numFields row Example.w_executed) = Ret 2 /\
  fst (ResultRow_numFields row w2) = Ret 0 /\
  fst (ResultRow_numFields row w2) <> Throw InvalidState.
Proof. vm_compute. repeat split; try reflexivity. discriminate. Qed.



(** ** Further properties: the statement handle *)

Section StatementProperties.

Context {Eng : Engine}.

Implicit Types (w : World Eng) (this : addr) (st : SqlStatement) (row : ResultRow).

(** [destroy] finalizes a live handle exactly once and leaves the object
    empty; on an empty object it calls nothing, so a second [destroy]
    changes nothing. *)
Theorem destroy_idempotent w this st :
  w_stmts w !! this = Some st ->
  exists w1,
    SqlStatement_destroy this w = (Ret tt, w1) /\
    w_stmts w1 = <[this := with_mpVM NULL (with_mEndOfRows true st)]> (w_stmts w) /\
    w_log w1 = w_log w ++ (if nonnull (mpVM st) then [Called (sqlite3_finalize (mpVM st))]
                           else []) /\
    SqlStatement_destroy this w1 = (Ret tt, w1).
Proof.
  intros Hst. destruct st as [vm bn eor res cols].
  unfold SqlStatement_destroy. destruct vm as [vm|].
  - destruct (eng_call (sqlite3_finalize (Some vm)) (w_eng w)) as [r e1] eqn:Hfin.
    wrun. eexists. split; [reflexivity|]. wreduce.
    rewrite !insert_insert_eq. conjs; try reflexivity.
    repeat wstep. rewrite ?insert_insert_eq. reflexivity.
  - wrun. eexists. split; [reflexivity|]. wreduce.
    rewrite ?insert_insert_eq, ?app_nil_r. conjs; try reflexivity.
    repeat wstep. rewrite ?insert_insert_eq. reflexivity.
Qed.

(** A step that yields a row or ends the rows: [nextRow] answers whether a
    row is current and only moves the end-of-rows flag.  The column count and
    the bind cursor are kept, also when the rows end. *)
Theorem nextRow_advances w this st vm result e1 :
  w_stmts w !! this = Some st ->
  mpVM st = Some vm ->
  mEndOfRows st = false ->
  eng_call (sqlite3_step (Some vm)) (w_eng w) = (result, e1) ->
  result = SQLITE_ROW \/ result = SQLITE_DONE ->
  SqlStatement_nextRow this w =
    (Ret (result =? SQLITE_ROW),
     {| w_eng := e1;
        w_log := w_log w ++ [Called (sqlite3_step (Some vm))];
        w_stmts := <[this := with_mEndOfRows (result =? SQLITE_DONE) st]> (w_stmts w);
        w_dbs := w_dbs w |}).
Proof.
  intros Hst Hvm Heor Hstep Hres.
  destruct st as [vm0 bn eor res cols]. cbn in Hvm, Heor. subst vm0 eor.
  unfold SqlStatement_nextRow.
  destruct Hres as [-> | ->].
  - wrun. change (SQLITE_ROW =? SQLITE_DONE) with false.
    change (SQLITE_ROW =? SQLITE_ROW) with true. wrun. reflexivity.
  - wrun. change (SQLITE_DONE =? SQLITE_DONE) with true.
    change (SQLITE_DONE =? SQLITE_ROW) with false. wrun. reflexivity.
Qed.

(** Once the rows have ended, [nextRow] keeps answering false and does not
    touch the engine any more. *)
Theorem nextRow_end_is_sticky w this st vm e1 :
  w_stmts w !! this = Some st ->
  mpVM st = Some vm ->
  mEndOfRows st = false ->
  eng_call (sqlite3_step (Some vm)) (w_eng w) = (SQLITE_DONE, e1) ->
  exists w1,
    SqlStatement_nextRow this w = (Ret false, w1) /\
    SqlStatement_hasRow this w1 = (Ret false, w1) /\
    SqlStatement_nextRow this w1 = (Ret false, w1) /\
    SqlStatement_currentRow this w1 = (Throw InvalidState, w1).
Proof.
  intros Hst Hvm Heor Hstep.
  destruct st as [vm0 bn eor res cols]. cbn in Hvm, Heor. subst vm0 eor.
  unfold SqlStatement_nextRow, SqlStatement_hasRow, SqlStatement_currentRow.
  wrun. change (SQLITE_DONE =? SQLITE_DONE) with true. wrun.
  eexists. split; [reflexivity|]. wrun. conjs; reflexivity.
Qed.

(** On a statement object without a native handle every bind overload,
    [execute], [nextRow] and [currentRow] throw [InvalidHandle] and leave
    everything as it was: no engine call, no change to the object. *)
Theorem statement_requires_handle w this st :
  w_stmts w !! this = Some st ->
  mpVM st = NULL ->
  (forall v, SqlStatement_bind_overload this v w = (Throw InvalidHandle_stmt, w)) /\
  SqlStatement_execute this w = (Throw InvalidHandle_stmt, w) /\
  SqlStatement_nextRow this w = (Throw InvalidHandle_stmt, w) /\
  SqlStatement_currentRow this w = (Throw InvalidHandle_stmt, w).
Proof.
  intros Hst Hvm. destruct st as [vm bn eor res cols]. cbn in Hvm. subst vm.
  conjs.
  - intros v. destruct v; cbn [SqlStatement_bind_overload];
      unfold SqlStatement_bind_text, SqlStatement_bind_int, SqlStatement_bind_int64,
        SqlStatement_bind_double, SqlStatement_bind_blob, SqlStatement_bindNull,
        SqlStatement_bindSame, SqlStatement_onBind;
      wrun; reflexivity.
  - unfold SqlStatement_execute. wrun. reflexivity.
  - unfold SqlStatement_nextRow. wrun. reflexivity.
  - unfold SqlStatement_currentRow. wrun. reflexivity.
Qed.

(** Binding past the first slot, with the cursor below [INT_MAX]: the value
    goes to the slot the cursor names and the cursor moves on by one whether
    or not the engine accepts the value; nothing else changes: no reset, the
    result state is kept.  The overload returns the statement when the engine
    answers [SQLITE_OK] and throws its own error on any other answer.
    [bindSame] makes no engine call at all and always returns. *)
Theorem bind_advances_cursor w this st vm (v : bind_value) :
  w_stmts w !! this = Some st ->
  mpVM st = Some vm ->
  mBindNext st <> 1 ->
  mBindNext st <> INT_MAX ->
  let reply := bind_reply (Some vm) (mBindNext st) v (w_eng w) in
  let w' := {| w_eng := snd reply;
               w_log := w_log w ++ bind_call (Some vm) (mBindNext st) v;
               w_stmts := <[this := with_mBindNext (mBindNext st + 1) st]> (w_stmts w);
               w_dbs := w_dbs w |} in
  (fst reply = SQLITE_OK ->
     SqlStatement_bind_overload this v w = (Ret this, w')) /\
  (fst reply <> SQLITE_OK ->
     SqlStatement_bind_overload this v w
       = (Throw (SqlDatabaseException (bind_error v)), w')) /\
  (v = BindSame ->
     SqlStatement_bind_overload this v w = (Ret this, w') /\
     w_eng w' = w_eng w /\ w_log w' = w_log w).
Proof.
  intros Hst Hvm Hne1 Hmax reply w'. subst reply w'.
  destruct st as [vm0 bn eor res cols]. cbn in Hvm, Hne1, Hmax. subst vm0.
  apply Z.eqb_neq in Hne1, Hmax. cbn [mBindNext].
  destruct v; cbn [SqlStatement_bind_overload bind_call bind_reply bind_error];
    unfold SqlStatement_bind_text, SqlStatement_bind_int, SqlStatement_bind_int64,
      SqlStatement_bind_double, SqlStatement_bind_blob, SqlStatement_bindNull,
      SqlStatement_bindSame, SqlStatement_onBind, mBindNext_post_incr;
    wrun;
    try match goal with
        | |- context [eng_call ?c (w_eng w)] =>
            destruct (eng_call c (w_eng w)) as [r e1] eqn:Hbind
        end;
    cbn [fst snd]; wrun; rewrite ?app_nil_r;
    (conjs;
     [ intros Hr; try (apply Z.eqb_eq in Hr; rewrite Hr); wrun; reflexivity
     | intros Hr; try (apply Z.eqb_neq in Hr; rewrite Hr); wrun;
       try reflexivity; exfalso; apply Hr; reflexivity
     | intros Hv; try discriminate Hv; cbn [w_eng w_log];
       rewrite ?app_nil_r; conjs; reflexivity ]).
Qed.

End StatementProperties.

(** ** Further properties: the row view *)

Section RowProperties.

Context {Eng : Engine}.

Implicit Types (w : World Eng) (this : addr) (st : SqlStatement) (row : ResultRow).

Ltac row_unfold :=
  unfold ResultRow_getIntField_name, ResultRow_getInt64Field_name,
    ResultRow_getFloatField_name, ResultRow_getStringField_name,
    ResultRow_getBlobField_name, ResultRow_fieldIsNull_name,
    ResultRow_getIntField, ResultRow_getInt64Field, ResultRow_getFloatField,
    ResultRow_getStringField, ResultRow_getBlobField, ResultRow_fieldIsNull,
    ResultRow_fieldName, ResultRow_fieldDeclType, ResultRow_fieldDataType,
    ResultRow_fieldIndex, ResultRow_numFields, ResultRow_checkIndex.

(** Every accessor that takes a column index checks it against the current
    column count before it asks the engine anything: outside
    [0 <= nField < mColsInResult] it throws [IndexOutOfRange] and makes no
    engine call. *)
Theorem index_checked_before_engine w row st vm nField :
  w_stmts w !! mpParent row = Some st ->
  mpVM st = Some vm ->
  nField < 0 \/ mColsInResult st <= nField ->
  ResultRow_fieldName row nField w = (Throw IndexOutOfRange, w) /\
  ResultRow_fieldDeclType row nField w = (Throw IndexOutOfRange, w) /\
  ResultRow_fieldDataType row nField w = (Throw IndexOutOfRange, w) /\
  ResultRow_fieldIsNull row nField w = (Throw IndexOutOfRange, w) /\
  ResultRow_getBlobField row nField w = (Throw IndexOutOfRange, w) /\
  (forall n, ResultRow_getIntField row nField n w = (Throw IndexOutOfRange, w)) /\
  (forall n, ResultRow_getInt64Field row nField n w = (Throw IndexOutOfRange, w)) /\
  (forall f, ResultRow_getFloatField row nField f w = (Throw IndexOutOfRange, w)) /\
  (forall sz, ResultRow_getStringField row nField sz w = (Throw IndexOutOfRange, w)).
Proof.
  intros Hst Hvm Hout. destruct st as [vm0 bn eor res cols]. cbn in Hvm, Hout. subst vm0.
  assert (Hchk : (nField <? 0) || (nField >=? cols) = true).
  { apply orb_true_iff. rewrite Z.geb_leb.
    destruct Hout; [left; apply Z.ltb_lt | right; apply Z.leb_le]; lia. }
  conjs; intros; row_unfold; wrun; rewrite ?Hchk; wrun; reflexivity.
Qed.

(** On a row view whose statement has no native handle every accessor throws
    [InvalidHandle], before any index or name is looked at: [numFields],
    [fieldIndex], the column descriptions, [fieldIsNull], [getBlobField] and
    the four typed getters, each by index and by name. *)
Theorem row_requires_handle w row st :
  w_stmts w !! mpParent row = Some st ->
  mpVM st = NULL ->
  ResultRow_numFields row w = (Throw InvalidHandle_row, w) /\
  (forall szField, ResultRow_fieldIndex row szField w = (Throw InvalidHandle_row, w)) /\
  (forall i, ResultRow_fieldName row i w = (Throw InvalidHandle_row, w)) /\
  (forall i, ResultRow_fieldDeclType row i w = (Throw InvalidHandle_row, w)) /\
  (forall i, ResultRow_fieldDataType row i w = (Throw InvalidHandle_row, w)) /\
  (forall i, ResultRow_getBlobField row i w = (Throw InvalidHandle_row, w)) /\
  (forall i n, ResultRow_getIntField row i n w = (Throw InvalidHandle_row, w)) /\
  (forall szField n,
     ResultRow_getIntField_name row szField n w = (Throw InvalidHandle_row, w)) /\
  (forall i n, ResultRow_getInt64Field row i n w = (Throw InvalidHandle_row, w)) /\
  (forall szField n,
     ResultRow_getInt64Field_name row szField n w = (Throw InvalidHandle_row, w)) /\
  (forall i f, ResultRow_getFloatField row i f w = (Throw InvalidHandle_row, w)) /\
  (forall szField f,
     ResultRow_getFloatField_name row szField f w = (Throw InvalidHandle_row, w)) /\
  (forall i sz, ResultRow_getStringField row i sz w = (Throw InvalidHandle_row, w)) /\
  (forall szField sz,
     ResultRow_getStringField_name row szField sz w = (Throw InvalidHandle_row, w)) /\
  (forall szField,
     ResultRow_getBlobField_name row szField w = (Throw InvalidHandle_row, w)) /\
  (forall i, ResultRow_fieldIsNull row i w = (Throw InvalidHandle_row, w)) /\
  (forall szField,
     ResultRow_fieldIsNull_name row szField w = (Throw InvalidHandle_row, w)).
Proof.
  intros Hst Hvm. destruct st as [vm bn eor res cols]. cbn in Hvm. subst vm.
  conjs; intros; row_unfold; wrun; reflexivity.
Qed.

(** [getBlobField] on a valid column asks the engine for the length and then
    for the bytes, and returns both as they are: the type of the cell is never
    asked for, so a NULL cell is not special. *)
Theorem getBlobField_in_range w row st vm nField nLen e1 blob e2 :
  w_stmts w !! mpParent row = Some st ->
  mpVM st = Some vm ->
  0 <= nField < mColsInResult st ->
  eng_call (sqlite3_column_bytes (Some vm) nField) (w_eng w) = (nLen, e1) ->
  eng_call (sqlite3_column_blob (Some vm) nField) e1 = (blob, e2) ->
  ResultRow_getBlobField row nField w =
    (Ret (blob, nLen),
     {| w_eng := e2;
        w_log := w_log w ++ [Called (sqlite3_column_bytes (Some vm) nField);
                             Called (sqlite3_column_blob (Some vm) nField)];
        w_stmts := w_stmts w; w_dbs := w_dbs w |}).
Proof.
  intros Hst Hvm Hrange Hbytes Hblob.
  destruct st as [vm0 bn eor res cols]. cbn in Hvm, Hrange. subst vm0.
  assert (Hchk : (nField <? 0) || (nField >=? cols) = false).
  { apply orb_false_iff. rewrite Z.geb_leb.
    split; [apply Z.ltb_ge | apply Z.leb_gt]; lia. }
  row_unfold. wrun. rewrite ?Hchk. wrun. rewrite <- ?app_assoc. reflexivity.
Qed.

Lemma string_compare_refl (s : string) : String.compare s s = Eq.
Proof.
  pose proof (String.compare_antisym s s) as H.
  destruct (String.compare s s); [reflexivity | discriminate H | discriminate H].
Qed.

Lemma strcmp_zero_eqb (a b : string) :
  (strcmp a b =? 0) = String.eqb (c_str a) (c_str b).
Proof.
  unfold strcmp.
  destruct (String.eqb_spec (c_str a) (c_str b)) as [E|E].
  - rewrite E, string_compare_refl. reflexivity.
  - destruct (String.compare (c_str a) (c_str b)) eqn:C; try reflexivity.
    apply String.compare_eq_iff in C. contradiction.
Qed.

(** The search loop over columns whose names the engine reports as [names],
    without changing its state. *)
Lemma fieldIndex_loop_first_match (vm : sqlite3_stmt) (szField : string)
    (e : eng_state Eng) (names : list string) :
  forall (k : Z) w,
    0 <= k ->
    w_eng w = e ->
    (forall i nm, names !! i = Some nm ->
       eng_call (sqlite3_column_name (Some vm) (k + Z.of_nat i)) e = (Some nm, e)) ->
    exists w',
      fieldIndex_loop (Some vm) szField (length names) k w =
        (match first_match szField names k with
         | Some i => Ret i
         | None => Throw FieldNotFound
         end, w') /\
      w_eng w' = e /\ w_stmts w' = w_stmts w /\ w_dbs w' = w_dbs w.
Proof.
  induction names as [|nm names IH]; intros k w Hk He Hnames.
  - cbn. unfold throw. eexists. conjs; try reflexivity. exact He.
  - cbn [length fieldIndex_loop first_match]. wunfold.
    specialize (Hnames 0%nat nm eq_refl) as Hhead.
    rewrite Z.add_0_r in Hhead. rewrite He, Hhead.
    rewrite strcmp_zero_eqb.
    destruct (String.eqb (c_str szField) (c_str nm)).
    + eexists. conjs; reflexivity.
    + match goal with
      | |- context [fieldIndex_loop _ _ _ _ ?w1] =>
          destruct (IH (k + 1) w1) as (w' & Hrun & He' & Hs & Hd)
      end.
      * lia.
      * reflexivity.
      * intros i nm' Hi. specialize (Hnames (S i) nm' Hi).
        replace (k + 1 + Z.of_nat i) with (k + Z.of_nat (S i)) by lia. exact Hnames.
      * exists w'. rewrite Hrun. conjs; auto.
Qed.

(** What [first_match] finds is a column with that name, and no earlier
    column has it. *)
Lemma first_match_spec (szField : string) (names : list string) :
  forall k i,
    first_match szField names k = Some i ->
    exists n nm,
      i = k + Z.of_nat n /\ names !! n = Some nm /\ c_str nm = c_str szField /\
      forall m nm', (m < n)%nat -> names !! m = Some nm' -> c_str nm' <> c_str szField.
Proof.
  induction names as [|nm names IH]; intros k i Hfind; [discriminate|].
  cbn in Hfind.
  destruct (String.eqb_spec (c_str szField) (c_str nm)) as [E|E].
  - injection Hfind as <-. exists 0%nat, nm.
    conjs; try reflexivity; try lia; auto.
  - apply IH in Hfind. destruct Hfind as (n & nm0 & -> & Hn & Heq & Hbefore).
    exists (S n), nm0. conjs; auto; try lia.
    intros [|m] nm' Hm Hlook.
    + cbn in Hlook. injection Hlook as <-. congruence.
    + cbn in Hlook. eapply Hbefore; [|exact Hlook]. lia.
Qed.

Lemma first_match_none (szField : string) (names : list string) :
  forall k,
    first_match szField names k = None ->
    forall n nm, names !! n = Some nm -> c_str nm <> c_str szField.
Proof.
  induction names as [|nm0 names IH]; intros k Hnone n nm Hn; [discriminate|].
  cbn in Hnone.
  destruct (String.eqb_spec (c_str szField) (c_str nm0)) as [E|E]; [discriminate|].
  destruct n as [|n]; cbn in Hn.
  - injection Hn as <-. congruence.
  - eapply IH; eauto.
Qed.

(** [fieldIndex] returns the first column whose name equals the requested
    name as a C string (byte for byte, so case matters), and throws
    [FieldNotFound] when no column has that name. *)
Theorem fieldIndex_first_match w row st vm (szField : string) (names : list string) :
  w_stmts w !! mpParent row = Some st ->
  mpVM st = Some vm ->
  mColsInResult st = Z.of_nat (length names) ->
  (forall i nm, names !! i = Some nm ->
     eng_call (sqlite3_column_name (Some vm) (Z.of_nat i)) (w_eng w) = (Some nm, w_eng w)) ->
  exists w',
    ResultRow_fieldIndex row (Some szField) w =
      (match first_match szField names 0 with
       | Some i => Ret i
       | None => Throw FieldNotFound
       end, w') /\
    w_eng w' = w_eng w /\ w_stmts w' = w_stmts w /\ w_dbs w' = w_dbs w /\
    (forall i, first_match szField names 0 = Some i ->
       exists n nm,
         i = Z.of_nat n /\ names !! n = Some nm /\ c_str nm = c_str szField /\
         forall m nm', (m < n)%nat -> names !! m = Some nm' ->
                       c_str nm' <> c_str szField) /\
    (first_match szField names 0 = None ->
       forall n nm, names !! n = Some nm -> c_str nm <> c_str szField).
Proof.
  intros Hst Hvm Hcols Hnames.
  destruct st as [vm0 bn eor res cols]. cbn in Hvm, Hcols. subst vm0 cols.
  unfold ResultRow_fieldIndex. wrun. rewrite Nat2Z.id.
  destruct (fieldIndex_loop_first_match vm szField (w_eng w) names 0 w)
    as (w' & Hrun & He & Hs & Hd); [lia | reflexivity | |].
  { intros i nm Hi. rewrite Z.add_0_l. auto. }
  exists w'. conjs; auto.
  - intros i Hi. destruct (first_match_spec _ _ _ _ Hi) as (n & nm & -> & H1 & H2 & H3).
    exists n, nm. conjs; auto.
  - intros Hnone n nm Hn. eapply first_match_none; eauto.
Qed.

End RowProperties.

(** ** Further properties: the connection *)

Section DatabaseProperties.

Context {Eng : Engine}.

Implicit Types (w : World Eng) (this : addr) (d : SqlDatabase).

(** [sqlExecute] hands the text to the engine once; [SQLITE_OK] returns, any
    other status is raised through [ThrowStatusCodeException]. *)
Theorem sqlExecute_outcomes w this d h szSQL result e1 :
  w_dbs w !! this = Some d ->
  mpDB d = Some h ->
  eng_call (sqlite3_exec (Some h) szSQL) (w_eng w) = (result, e1) ->
  let w1 := {| w_eng := e1;
               w_log := w_log w ++ [Called (sqlite3_exec (Some h) szSQL)];
               w_stmts := w_stmts w; w_dbs := w_dbs w |} in
  (result = SQLITE_OK -> SqlDatabase_sqlExecute this szSQL w = (Ret tt, w1)) /\
  (result <> SQLITE_OK ->
     SqlDatabase_sqlExecute this szSQL w = ThrowStatusCodeException result (Some h) w1) /\
  (result = SQLITE_BUSY ->
     SqlDatabase_sqlExecute this szSQL w = (Throw SqlDatabaseBusyException, w1)).
Proof.
  intros Hd Hh Hexec w1. subst w1.
  destruct d as [db ms]. cbn in Hh. subst db.
  unfold SqlDatabase_sqlExecute. conjs.
  - intros ->. wrun. change (SQLITE_OK =? SQLITE_OK) with true. wrun. reflexivity.
  - intros Hne%Z.eqb_neq. wrun. reflexivity.
  - intros ->. wrun. change (SQLITE_BUSY =? SQLITE_OK) with false. wrun.
    unfold ThrowStatusCodeException. change (SQLITE_BUSY =? SQLITE_BUSY) with true.
    reflexivity.
Qed.

(** [sqlExec] and [sqlExecVar] do the same thing: format, execute the
    formatted text, free the buffer, and only then look at the status, so the
    buffer is freed exactly once also when the execution fails. *)
Theorem sqlExec_frees_buffer w this d h szSQL (va : list va_arg) sql e1 result e2 u e3 :
  w_dbs w !! this = Some d ->
  mpDB d = Some h ->
  eng_call (sqlite3_vmprintf szSQL va) (w_eng w) = (Some sql, e1) ->
  eng_call (sqlite3_exec (Some h) sql) e1 = (result, e2) ->
  eng_call (sqlite3_free (Some sql)) e2 = (u, e3) ->
  let w3 := {| w_eng := e3;
               w_log := w_log w ++ [Called (sqlite3_vmprintf szSQL va);
                                    Called (sqlite3_exec (Some h) sql);
                                    Called (sqlite3_free (Some sql))];
               w_stmts := w_stmts w; w_dbs := w_dbs w |} in
  SqlDatabase_sqlExec this szSQL va w =
    (if result =? SQLITE_OK then (Ret tt, w3)
     else ThrowStatusCodeException result (Some h) w3) /\
  SqlDatabase_sqlExecVar this szSQL va w = SqlDatabase_sqlExec this szSQL va w /\
  (forall o w', SqlDatabase_sqlExec this szSQL va w = (o, w') ->
     count_calls is_free (w_log w') = (count_calls is_free (w_log w) + 1)%nat).
Proof.
  intros Hd Hh Hfmt Hexec Hfree w3. subst w3.
  destruct d as [db ms]. cbn in Hh. subst db.
  assert (Hrun : SqlDatabase_sqlExec this szSQL va w =
    (if result =? SQLITE_OK
     then (Ret tt,
           {| w_eng := e3;
              w_log := w_log w ++ [Called (sqlite3_vmprintf szSQL va);
                                   Called (sqlite3_exec (Some h) sql);
                                   Called (sqlite3_free (Some sql))];
              w_stmts := w_stmts w; w_dbs := w_dbs w |})
     else ThrowStatusCodeException result (Some h)
           {| w_eng := e3;
              w_log := w_log w ++ [Called (sqlite3_vmprintf szSQL va);
                                   Called (sqlite3_exec (Some h) sql);
                                   Called (sqlite3_free (Some sql))];
              w_stmts := w_stmts w; w_dbs := w_dbs w |})).
  { unfold SqlDatabase_sqlExec. wrun. rewrite <- !app_assoc. cbn [app].
    destruct (result =? SQLITE_OK); reflexivity. }
  conjs.
  - exact Hrun.
  - reflexivity.
  - intros o w'. rewrite Hrun. destruct (result =? SQLITE_OK).
    + intros [= <- <-]. cbn [w_log]. rewrite count_calls_app. reflexivity.
    + match goal with
      | |- ThrowStatusCodeException result (Some h) ?w1 = _ -> _ =>
          destruct (ThrowStatusCodeException_throws result (Some h) w1)
            as (o1 & w1' & E & _ & _ & _ & _ & _ & extra & Hlog & Hrep)
      end.
      rewrite E. intros [= <- <-]. rewrite Hlog. cbn [w_log].
      rewrite !count_calls_app.
      assert (Hx : count_calls is_free extra = 0%nat).
      { clear -Hrep. induction extra as [|[R c] l IH]; [reflexivity|].
        cbn [forallb] in Hrep. apply andb_true_iff in Hrep as [Hc Hl].
        specialize (IH Hl). unfold count_calls in *.
        destruct c; cbn in Hc |- *; try discriminate; auto. }
      rewrite Hx. cbn. lia.
Qed.

(** When the engine cannot allocate the formatted text, [sqlExec],
    [sqlExecVar] and [sqlQuery] throw [FormattingFailed] and do nothing more;
    [sqlFormat] has no such check and builds a [std::string] from the null
    pointer. *)
Theorem formatting_failure w this d h fmt (va : list va_arg) e1 :
  w_dbs w !! this = Some d ->
  mpDB d = Some h ->
  eng_call (sqlite3_vmprintf fmt va) (w_eng w) = (NULL, e1) ->
  let w1 := {| w_eng := e1;
               w_log := w_log w ++ [Called (sqlite3_vmprintf fmt va)];
               w_stmts := w_stmts w; w_dbs := w_dbs w |} in
  SqlDatabase_sqlExec this fmt va w = (Throw FormattingFailed, w1) /\
  SqlDatabase_sqlExecVar this fmt va w = (Throw FormattingFailed, w1) /\
  (forall ret, SqlDatabase_sqlQuery this ret fmt va w = (Throw FormattingFailed, w1)) /\
  SqlDatabase_sqlFormat this fmt va w =
    (Undefined "std::string constructed from a null pointer", w1).
Proof.
  intros Hd Hh Hfmt w1. subst w1.
  destruct d as [db ms]. cbn in Hh. subst db.
  conjs; intros;
    unfold SqlDatabase_sqlExec, SqlDatabase_sqlExecVar, SqlDatabase_sqlQuery,
      SqlDatabase_sqlQueryVar, SqlDatabase_sqlFormat;
    wrun; reflexivity.
Qed.

(** On a closed connection everything that compiles or runs SQL throws
    [InvalidHandle] without calling the engine, and [close] does nothing.  The
    metadata calls make no such check: they call the engine with the null
    handle. *)
Theorem closed_connection w this d :
  w_dbs w !! this = Some d ->
  mpDB d = NULL ->
  (forall sql, SqlDatabase_sqlExecute this sql w = (Throw InvalidHandle_db, w)) /\
  (forall sql va, SqlDatabase_sqlExec this sql va w = (Throw InvalidHandle_db, w)) /\
  (forall sql va, SqlDatabase_sqlExecVar this sql va w = (Throw InvalidHandle_db, w)) /\
  (forall ret sql, SqlDatabase_sqlCompile this ret sql w = (Throw InvalidHandle_db, w)) /\
  (forall ret sql va, SqlDatabase_sqlQuery this ret sql va w = (Throw InvalidHandle_db, w)) /\
  (forall sql ev, SqlDatabase_getScalar this sql ev w = (Throw InvalidHandle_db, w)) /\
  SqlDatabase_close this w = (Ret tt, w) /\
  w_log (snd (SqlDatabase_numberOfRowsChanged this w))
    = w_log w ++ [Called (sqlite3_changes NULL)] /\
  w_log (snd (SqlDatabase_lastRowId this w))
    = w_log w ++ [Called (sqlite3_last_insert_rowid NULL)] /\
  w_log (snd (SqlDatabase_interrupt this w))
    = w_log w ++ [Called (sqlite3_interrupt NULL)] /\
  (forall ms, w_log (snd (SqlDatabase_setBusyTimeout this ms w))
              = w_log w ++ [Called (sqlite3_busy_timeout NULL ms)]).
Proof.
  intros Hd Hh. destruct d as [db ms0]. cbn in Hh. subst db.
  conjs; intros;
    unfold SqlDatabase_sqlExecute, SqlDatabase_sqlExec, SqlDatabase_sqlExecVar,
      SqlDatabase_sqlCompile, SqlDatabase_getScalar, SqlDatabase_sqlQuery,
      SqlDatabase_sqlQueryVar, SqlDatabase_close, SqlDatabase_numberOfRowsChanged,
      SqlDatabase_lastRowId, SqlDatabase_interrupt, SqlDatabase_setBusyTimeout,
      stmt_storage;
    wrun;
    try match goal with
        | |- context [eng_call ?c ?e] => destruct (eng_call c e) as [r e1]
        end;
    try reflexivity.
Qed.


End DatabaseProperties.

(** ** Further properties: queries, assignment, the row-view invariant *)

Section CompositeProperties.

Context {Eng : Engine}.

Implicit Types (w : World Eng) (this : addr) (d : SqlDatabase) (st : SqlStatement).


(** [sqlQuery] when the first step fails: the exception of [execute] leaves
    through the temporary's destructor, which finalizes the statement.  No
    statement object remains and the handle is finalized exactly once. *)
Theorem sqlQuery_step_failure_finalizes w this d h ret szSQL (va : list va_arg)
    sql vm tail e1 e2 u e3 result e4 :
  w_dbs w !! this = Some d ->
  mpDB d = Some h ->
  eng_call (sqlite3_vmprintf szSQL va) (w_eng w) = (Some sql, e1) ->
  eng_call (sqlite3_prepare_v2 (Some h) sql) e1 = ((SQLITE_OK, Some vm, Some tail), e2) ->
  c_str tail = EmptyString ->
  eng_call (sqlite3_free (Some sql)) e2 = (u, e3) ->
  eng_call (sqlite3_step (Some vm)) e3 = (result, e4) ->
  result <> SQLITE_DONE -> result <> SQLITE_ROW -> 0 <= result ->
  exists ex w',
    SqlDatabase_sqlQuery this ret szSQL va w = (Throw ex, w') /\
    (result = SQLITE_BUSY -> ex = SqlDatabaseBusyException) /\
    w_stmts w' = w_stmts w /\
    count_calls is_finalize (w_log w') = (count_calls is_finalize (w_log w) + 1)%nat /\
    exists before, w_log w' = before ++ [Called (sqlite3_finalize (Some vm))].
Proof.
  intros Hd Hh Hfmt Hprep Htail Hfree Hstep Hnd%Z.eqb_neq Hnr%Z.eqb_neq Hpos.
  destruct d as [db ms]. cbn in Hh. subst db.
  assert (Hx : negb (Ascii.eqb (first_char tail) Ascii.zero) = false).
  { apply first_char_zero_iff in Htail. rewrite Htail. reflexivity. }
  unfold SqlDatabase_sqlQuery, SqlDatabase_sqlQueryVar, stmt_storage.
  wrun. change (SQLITE_OK =? SQLITE_OK) with true. wrun.
  set (tmp := fresh ({[ret]} ∪ dom (w_stmts w))).
  assert (Htmp : tmp ∉ {[ret]} ∪ dom (w_stmts w)) by apply is_fresh.
  assert (Hnone : w_stmts w !! tmp = None) by (apply not_elem_of_dom; set_solver).
  unfold scoped, SqlStatement_ctor, SqlStatement_execute.
  wrun.
  match goal with
  | |- context [ThrowStatusCodeException_vm result (Some vm) ?w1] =>
      destruct (ThrowStatusCodeException_vm_throws result (Some vm) w1)
        as (o & w' & E & Hs & Hdb & _ & Hthrow & Hbusy & extra & Hlog & Hrep)
  end.
  destruct (Hthrow Hpos) as [ex ->]. rewrite E.
  cbn [w_stmts w_log] in Hs, Hlog.
  destruct w' as [e5 l5 s5 d5]. cbn in Hs, Hlog, Hdb. subst s5 l5.
  destruct (eng_call (sqlite3_finalize (Some vm)) e5) as [rf e6] eqn:Hfin.
  unfold SqlStatement_dtor, SqlStatement_destroy. wrun.
  exists ex. eexists. split; [reflexivity|]. wreduce.
  destruct (report_is_no_step extra Hrep) as [_ _].
  assert (Hxf : count_calls is_finalize extra = 0%nat).
  { clear -Hrep. induction extra as [|[R c] l IH]; [reflexivity|].
    cbn [forallb] in Hrep. apply andb_true_iff in Hrep as [Hc Hl].
    specialize (IH Hl). unfold count_calls in *.
    destruct c; cbn in Hc |- *; try discriminate; auto. }
  conjs.
  - intros Hb. specialize (Hbusy Hb). congruence.
  - apply map_eq. intros k. destruct (decide (k = tmp)) as [->|Hk].
    + rewrite lookup_delete_eq. symmetry. exact Hnone.
    + rewrite lookup_delete_ne, !lookup_insert_ne by congruence. reflexivity.
  - rewrite !count_calls_app, Hxf. cbn. lia.
  - eexists. reflexivity.
Qed.

(** Assignment between two distinct statement objects first releases what
    the destination held (one [sqlite3_finalize] when it held a handle, none
    otherwise), then takes over handle, bind cursor, end-of-rows flag and
    column count, and leaves the source without a handle. *)
Theorem assign_releases_old_handle w this src dst st :
  w_stmts w !! this = Some dst ->
  w_stmts w !! src = Some st ->
  this <> src ->
  exists w',
    SqlStatement_assign this src w = (Ret this, w') /\
    w_stmts w' !! this = Some (stmt_copy_of this st) /\
    w_stmts w' !! src = Some (with_mpVM NULL st) /\
    w_log w' = w_log w ++ (if nonnull (mpVM dst)
                           then [Called (sqlite3_finalize (mpVM dst))] else []) /\
    SqlStatement_hasRow this w' = (Ret (negb (mEndOfRows st)), w').
Proof.
  intros Hdst Hst Hne.
  rewrite (SqlStatement_assign_spec _ _ _ _ _ Hdst Hst Hne).
  eexists. split; [reflexivity|]. cbn [w_stmts w_log].
  rewrite lookup_insert_ne, !lookup_insert_eq by congruence.
  conjs; try reflexivity.
  - destruct (nonnull (mpVM dst)); reflexivity.
  - unfold SqlStatement_hasRow. wrun. reflexivity.
Qed.

(** Assigning a statement to itself is not guarded: [destroy] runs first, so
    the handle is finalized and the object ends up empty. *)
Theorem self_assignment_loses_handle w this st :
  w_stmts w !! this = Some st ->
  exists w',
    SqlStatement_assign this this w = (Ret this, w') /\
    mpVM <$> w_stmts w' !! this = Some NULL /\
    mEndOfRows <$> w_stmts w' !! this = Some true /\
    w_log w' = w_log w ++ (if nonnull (mpVM st)
                           then [Called (sqlite3_finalize (mpVM st))] else []).
Proof.
  intros Hst. destruct st as [vm bn eor res cols]. cbn [mpVM].
  unfold SqlStatement_assign, SqlStatement_destroy.
  destruct vm as [vm|]; cbn [nonnull].
  - destruct (eng_call (sqlite3_finalize (Some vm)) (w_eng w)) as [r e1] eqn:Hfin.
    wrun. eexists. split; [reflexivity|]. wreduce. rewrite !lookup_insert_eq.
    conjs; reflexivity.
  - wrun. eexists. split; [reflexivity|]. wreduce. rewrite !lookup_insert_eq, app_nil_r.
    conjs; reflexivity.
Qed.

(** For a name that fits the buffer, [tableExists] is [getScalar] on the
    catalog query with the bytes of the name put between the quotes as they
    are (nothing is escaped), with -1 as error value, compared with 0. *)
Theorem tableExists_runs_catalog_query w this (szTable : string) :
  strlen szTable <= 62 ->
  SqlDatabase_tableExists this szTable w =
    (nRet ← SqlDatabase_getScalar this
              ("SELECT COUNT(*) FROM sqlite_master WHERE type='table' AND name='"
               +:+ c_str szTable +:+ "'") (-1);
     mret (nRet >? 0)) w.
Proof.
  intros Hlen.
  pose proof (c_format_tableExists szTable) as Hfmt.
  pose proof (tableExists_written szTable _ Hfmt) as Hw.
  unfold SqlDatabase_tableExists, sprintf. rewrite Hfmt.
  destruct (Z.leb_spec
    (Z.of_nat (String.length
       ("SELECT COUNT(*) FROM sqlite_master WHERE type='table' AND name='"
        +:+ c_str szTable +:+ "'")) + 1) 128) as [_|Hgt]; [|lia].
  reflexivity.
Qed.

End CompositeProperties.

(** ** Further properties: every row view points at its own statement *)

Section RowViewInvariant.

Context {Eng : Engine}.

Implicit Types (w : World Eng) (this : addr) (st : SqlStatement).

Lemma keeps_ret {A} (a : A) : keeps_views (mret a : M Eng A).
Proof. intros w o w' Hok [= <- <-]. exact Hok. Qed.

Lemma keeps_throw {A} (e : exn) : keeps_views (throw e : M Eng A).
Proof. intros w o w' Hok [= <- <-]. exact Hok. Qed.

Lemma keeps_undefined {A} (u : string) : keeps_views (undefined u : M Eng A).
Proof. intros w o w' Hok [= <- <-]. exact Hok. Qed.

Lemma keeps_bind {A B} (m : M Eng A) (k : A -> M Eng B) :
  keeps_views m -> (forall a, keeps_views (k a)) -> keeps_views (mbind k m).
Proof.
  intros Hm Hk w o w' Hok. unfold mbind, M_bind.
  destruct (m w) as [[a|e|u] w1] eqn:E; specialize (Hm _ _ _ Hok E).
  - intros Hrun. exact (Hk a _ _ _ Hm Hrun).
  - intros [= <- <-]. exact Hm.
  - intros [= <- <-]. exact Hm.
Qed.

Lemma keeps_call {R} (c : sqlite3_api R) : keeps_views (call c : M Eng R).
Proof.
  intros w o w' Hok. unfold call.
  destruct (eng_call c (w_eng w)). intros [= <- <-]. exact Hok.
Qed.

Lemma keeps_stmt_get {A} this (f : SqlStatement -> A) : keeps_views (stmt_get (Eng := Eng) this f).
Proof.
  intros w o w' Hok. unfold stmt_get.
  destruct (w_stmts w !! this); intros [= <- <-]; exact Hok.
Qed.

Lemma keeps_db_get {A} this (f : SqlDatabase -> A) : keeps_views (db_get (Eng := Eng) this f).
Proof.
  intros w o w' Hok. unfold db_get.
  destruct (w_dbs w !! this); intros [= <- <-]; exact Hok.
Qed.

Lemma keeps_db_set {A} this (upd : A -> SqlDatabase -> SqlDatabase) (v : A) :
  keeps_views (db_set (Eng := Eng) this upd v).
Proof.
  intros w o w' Hok. unfold db_set.
  destruct (w_dbs w !! this); intros [= <- <-]; exact Hok.
Qed.

(** An update that leaves [mResult] alone keeps the invariant. *)
Lemma keeps_stmt_set {A} this (upd : A -> SqlStatement -> SqlStatement) (v : A) :
  (forall s, mResult (upd v s) = mResult s) ->
  keeps_views (stmt_set (Eng := Eng) this upd v).
Proof.
  intros Hupd w o w' Hok. unfold stmt_set.
  destruct (w_stmts w !! this) as [s|] eqn:Hs; intros [= <- <-]; [|exact Hok].
  cbn [w_stmts set_stmts]. apply map_Forall_insert_2; [|exact Hok].
  rewrite Hupd. exact (Hok _ _ Hs).
Qed.

Lemma keeps_stmt_set_mResult this :
  keeps_views (stmt_set (Eng := Eng) this with_mResult {| mpParent := this |}).
Proof.
  intros w o w' Hok. unfold stmt_set.
  destruct (w_stmts w !! this) as [s|] eqn:Hs; intros [= <- <-]; [|exact Hok].
  cbn [w_stmts set_stmts]. apply map_Forall_insert_2; [reflexivity|exact Hok].
Qed.

Lemma keeps_stmt_construct this (s : SqlStatement) :
  mpParent (mResult s) = this ->
  keeps_views (stmt_construct (Eng := Eng) this s).
Proof.
  intros Hs w o w' Hok [= <- <-].
  cbn [w_stmts set_stmts]. apply map_Forall_insert_2; [exact Hs|exact Hok].
Qed.

Lemma keeps_stmt_release this : keeps_views (stmt_release (Eng := Eng) this).
Proof.
  intros w o w' Hok [= <- <-].
  cbn [w_stmts set_stmts]. apply map_Forall_delete. exact Hok.
Qed.

Lemma keeps_stmt_storage (avoid : gset addr) : keeps_views (stmt_storage (Eng := Eng) avoid).
Proof. intros w o w' Hok [= <- <-]. exact Hok. Qed.

Lemma keeps_scoped {A} (dtor : M Eng unit) (body : M Eng A) :
  keeps_views dtor -> keeps_views body -> keeps_views (scoped dtor body).
Proof.
  intros Hd Hb w o w' Hok. unfold scoped.
  destruct (body w) as [[a|e|u] w1] eqn:E; specialize (Hb _ _ _ Hok E).
  - destruct (dtor w1) as [[x|e|u] w2] eqn:E2; specialize (Hd _ _ _ Hb E2);
      intros [= <- <-]; exact Hd.
  - destruct (dtor w1) as [[x|e'|u] w2] eqn:E2; specialize (Hd _ _ _ Hb E2);
      intros [= <- <-]; exact Hd.
  - intros [= <- <-]. exact Hb.
Qed.

Lemma keeps_try_catch_all (m : M Eng unit) : keeps_views m -> keeps_views (try_catch_all m).
Proof.
  intros Hm w o w' Hok. unfold try_catch_all.
  destruct (m w) as [[a|e|u] w1] eqn:E; specialize (Hm _ _ _ Hok E);
    intros [= <- <-]; exact Hm.
Qed.

(** Composition: peel binds, branch on tests, close each leaf; [known]
    closes the calls already dealt with. *)
Ltac keeps_with known :=
  repeat first
    [ known
    | match goal with
      | |- keeps_views (mret _) => apply keeps_ret
      | |- keeps_views (throw _) => apply keeps_throw
      | |- keeps_views (undefined _) => apply keeps_undefined
      | |- keeps_views (call _) => apply keeps_call
      | |- keeps_views (stmt_get _ _) => apply keeps_stmt_get
      | |- keeps_views (db_get _ _) => apply keeps_db_get
      | |- keeps_views (db_set _ _ _) => apply keeps_db_set
      | |- keeps_views (stmt_set _ with_mResult _) => apply keeps_stmt_set_mResult
      | |- keeps_views (stmt_set _ _ _) =>
          apply keeps_stmt_set; intros [? ? ? ? ?]; reflexivity
      | |- keeps_views (stmt_construct _ _) => apply keeps_stmt_construct; reflexivity
      | |- keeps_views (stmt_release _) => apply keeps_stmt_release
      | |- keeps_views (stmt_storage _) => apply keeps_stmt_storage
      | |- keeps_views (scoped _ _) => apply keeps_scoped
      | |- keeps_views (try_catch_all _) => apply keeps_try_catch_all
      | |- keeps_views (if ?b then _ else _) => destruct b
      | |- keeps_views (match ?x with _ => _ end) => destruct x
      | |- keeps_views (mbind _ _) => apply keeps_bind; [|intros ?]
      end ].

Ltac keeps := keeps_with fail.

Lemma keeps_assert (a : bool) (text : string) : keeps_views (assert_ (Eng := Eng) a text).
Proof. unfold assert_. keeps. Qed.

Lemma keeps_require {P} (b : option P) (text : string) :
  keeps_views (require (Eng := Eng) b text).
Proof. unfold require. apply keeps_assert. Qed.

Lemma keeps_ThrowStatusCodeException (statusCode : Z) (db : option sqlite3) :
  keeps_views (ThrowStatusCodeException (Eng := Eng) statusCode db).
Proof. unfold ThrowStatusCodeException. keeps. Qed.

Lemma keeps_ThrowStatusCodeException_vm (statusCode : Z) (vm : option sqlite3_stmt) :
  keeps_views (ThrowStatusCodeException_vm (Eng := Eng) statusCode vm).
Proof.
  unfold ThrowStatusCodeException_vm.
  keeps_with ltac:(idtac; match goal with
                   | |- keeps_views (ThrowStatusCodeException _ _) =>
                       apply keeps_ThrowStatusCodeException
                   end).
Qed.

Ltac keeps_base :=
  keeps_with ltac:(idtac; match goal with
                   | |- keeps_views (require _ _) => apply keeps_require
                   | |- keeps_views (assert_ _ _) => apply keeps_assert
                   | |- keeps_views (ThrowStatusCodeException_vm _ _) =>
                       apply keeps_ThrowStatusCodeException_vm
                   | |- keeps_views (ThrowStatusCodeException _ _) =>
                       apply keeps_ThrowStatusCodeException
                   end).

Lemma keeps_destroy this : keeps_views (SqlStatement_destroy (Eng := Eng) this).
Proof. unfold SqlStatement_destroy. keeps_base. Qed.

Lemma keeps_dtor this : keeps_views (SqlStatement_dtor (Eng := Eng) this).
Proof. unfold SqlStatement_dtor. keeps_with ltac:(idtac; match goal with
                   | |- keeps_views (SqlStatement_destroy _) => apply keeps_destroy
                   end). Qed.

Lemma keeps_onBind this : keeps_views (SqlStatement_onBind (Eng := Eng) this).
Proof. unfold SqlStatement_onBind. keeps_base. Qed.

Lemma keeps_post_incr this : keeps_views (mBindNext_post_incr (Eng := Eng) this).
Proof. unfold mBindNext_post_incr. keeps_base. Qed.

Lemma keeps_execute this : keeps_views (SqlStatement_execute (Eng := Eng) this).
Proof.
  unfold SqlStatement_execute. keeps_base.
Qed.

Lemma keeps_copy_ctor this src : keeps_views (SqlStatement_copy_ctor (Eng := Eng) this src).
Proof. unfold SqlStatement_copy_ctor. keeps_base. Qed.

Ltac keeps_stmt :=
  keeps_with ltac:(idtac; match goal with
                   | |- keeps_views (require _ _) => apply keeps_require
                   | |- keeps_views (assert_ _ _) => apply keeps_assert
                   | |- keeps_views (ThrowStatusCodeException_vm _ _) =>
                       apply keeps_ThrowStatusCodeException_vm
                   | |- keeps_views (ThrowStatusCodeException _ _) =>
                       apply keeps_ThrowStatusCodeException
                   | |- keeps_views (SqlStatement_dtor _) => apply keeps_dtor
                   | |- keeps_views (SqlStatement_destroy _) => apply keeps_destroy
                   | |- keeps_views (SqlStatement_onBind _) => apply keeps_onBind
                   | |- keeps_views (mBindNext_post_incr _) => apply keeps_post_incr
                   | |- keeps_views (SqlStatement_execute _) => apply keeps_execute
                   | |- keeps_views (SqlStatement_copy_ctor _ _) => apply keeps_copy_ctor
                   end).

Lemma keeps_sqlQueryVar this ret szSQL va :
  keeps_views (SqlDatabase_sqlQueryVar (Eng := Eng) this ret szSQL va).
Proof.
  unfold SqlDatabase_sqlQueryVar, SqlStatement_ctor. keeps_stmt.
Qed.

Lemma keeps_currentRow this : keeps_views (SqlStatement_currentRow (Eng := Eng) this).
Proof. unfold SqlStatement_currentRow. keeps_base. Qed.

(** The invariant: constructors and copies make the row view of the new
    object point at the object, and no operation of the statement or of the
    connection ever breaks that, whether it returns or throws.  So the view
    [currentRow] hands out always reads the statement it was asked on. *)
Theorem row_views_invariant (this src ret : addr) :
  keeps_views (SqlStatement_ctor0 (Eng := Eng) this) /\
  (forall pVM, keeps_views (SqlStatement_ctor (Eng := Eng) this pVM)) /\
  keeps_views (SqlStatement_copy_ctor (Eng := Eng) this src) /\
  keeps_views (SqlStatement_assign (Eng := Eng) this src) /\
  keeps_views (SqlStatement_destroy (Eng := Eng) this) /\
  (forall v, keeps_views (SqlStatement_bind_overload (Eng := Eng) this v)) /\
  keeps_views (SqlStatement_execute (Eng := Eng) this) /\
  keeps_views (SqlStatement_nextRow (Eng := Eng) this) /\
  (forall sql, keeps_views (SqlDatabase_sqlCompile (Eng := Eng) this ret sql)) /\
  (forall sql va, keeps_views (SqlDatabase_sqlQuery (Eng := Eng) this ret sql va)) /\
  (forall sql ev, keeps_views (SqlDatabase_getScalar (Eng := Eng) this sql ev)) /\
  (forall w row w',
     row_views_ok (w_stmts w) ->
     SqlStatement_currentRow this w = (Ret row, w') ->
     mpParent row = this /\ w' = w).
Proof.
  conjs.
  - unfold SqlStatement_ctor0. keeps_stmt.
  - intros pVM. unfold SqlStatement_ctor. keeps_stmt.
  - apply keeps_copy_ctor.
  - unfold SqlStatement_assign. keeps_stmt.
  - apply keeps_destroy.
  - intros v. destruct v; cbn [SqlStatement_bind_overload];
      unfold SqlStatement_bind_text, SqlStatement_bind_int, SqlStatement_bind_int64,
        SqlStatement_bind_double, SqlStatement_bind_blob, SqlStatement_bindNull,
        SqlStatement_bindSame;
      keeps_stmt.
  - apply keeps_execute.
  - unfold SqlStatement_nextRow. keeps_stmt.
  - intros sql. unfold SqlDatabase_sqlCompile, SqlStatement_ctor. keeps_stmt.
  - intros sql va. unfold SqlDatabase_sqlQuery. apply keeps_sqlQueryVar.
  - intros sql ev. unfold SqlDatabase_getScalar, SqlDatabase_sqlQuery,
      SqlStatement_hasRow, ResultRow_numFields, ResultRow_getIntField,
      ResultRow_fieldDataType, ResultRow_checkIndex.
    keeps_with ltac:(idtac; match goal with
                     | |- keeps_views (SqlDatabase_sqlQueryVar _ _ _ _) =>
                         apply keeps_sqlQueryVar
                     | |- keeps_views (SqlStatement_dtor _) => apply keeps_dtor
                     | |- keeps_views (SqlStatement_currentRow _) => apply keeps_currentRow
                     | |- keeps_views (require _ _) => apply keeps_require
                     end).
  - intros w row w' Hok. unfold SqlStatement_currentRow. wunfold.
    destruct (w_stmts w !! this) as [[vm bn eor res cols]|] eqn:Hst; [|discriminate].
    wreduce. destruct vm as [vm|]; wreduce; [|discriminate].
    rewrite Hst. wreduce. destruct eor; [discriminate|].
    rewrite Hst. wreduce. intros [= <- <-]. split; [|reflexivity].
    exact (Hok _ _ Hst).
Qed.

End RowViewInvariant.

(** ** The further properties at concrete inputs *)

Lemma destroy_idempotent_witness :
  exists w1,
    SqlStatement_destroy 2%positive Example.w_compiled = (Ret tt, w1) /\
    w_log w1 = w_log Example.w_compiled ++ [Called (sqlite3_finalize (Some 100%positive))] /\
    SqlStatement_destroy 2%positive w1 = (Ret tt, w1).
Proof.
  edestruct (destroy_idempotent (Eng := Ref.engine) Example.w_compiled 2%positive)
    as (w1 & Hrun & _ & Hlog & Hagain).
  { vm_compute. reflexivity. }
  exists w1. split; [exact Hrun|]. split; [exact Hlog|exact Hagain].
Defined.

Lemma nextRow_advances_witness :
  fst (SqlStatement_nextRow 2%positive Example.w_executed) = Ret true /\
  mColsInResult <$> w_stmts (snd (SqlStatement_nextRow 2%positive Example.w_executed))
                      !! 2%positive = Some 2.
Proof.
  erewrite (nextRow_advances (Eng := Ref.engine) Example.w_executed 2%positive
              {| mpVM := Some 100%positive; mBindNext := 1; mEndOfRows := false;
                 mResult := {| mpParent := 2%positive |}; mColsInResult := 2 |}
              100%positive SQLITE_ROW).
  - split; vm_compute; reflexivity.
  - vm_compute. reflexivity.
  - reflexivity.
  - reflexivity.
  - vm_compute. reflexivity.
  - left. reflexivity.
Defined.

Lemma nextRow_end_is_sticky_witness :
  exists w1,
    SqlStatement_nextRow 2%positive Example.w_second = (Ret false, w1) /\
    SqlStatement_nextRow 2%positive w1 = (Ret false, w1) /\
    mColsInResult <$> w_stmts w1 !! 2%positive = Some 2.
Proof.
  edestruct (nextRow_end_is_sticky (Eng := Ref.engine) Example.w_second 2%positive
               {| mpVM := Some 100%positive; mBindNext := 1; mEndOfRows := false;
                  mResult := {| mpParent := 2%positive |}; mColsInResult := 2 |}
               100%positive) as (w1 & Hrun & _ & Hagain & _).
  - vm_compute. reflexivity.
  - reflexivity.
  - reflexivity.
  - vm_compute. reflexivity.
  - exists w1. split; [exact Hrun|]. split; [exact Hagain|].
    assert (E : w1 = snd (SqlStatement_nextRow 2%positive Example.w_second))
      by (rewrite Hrun; reflexivity).
    rewrite E. vm_compute. reflexivity.
Defined.

Lemma statement_requires_handle_witness :
  SqlStatement_bind_overload 5%positive BindNull Example.w_empty_stmt
    = (Throw InvalidHandle_stmt, Example.w_empty_stmt) /\
  SqlStatement_execute 5%positive Example.w_empty_stmt
    = (Throw InvalidHandle_stmt, Example.w_empty_stmt).
Proof.
  edestruct (statement_requires_handle (Eng := Ref.engine) Example.w_empty_stmt 5%positive)
    as (Hbind & Hexec & _).
  - vm_compute. reflexivity.
  - reflexivity.
  - split; [apply Hbind | exact Hexec].
Defined.

Lemma bind_advances_cursor_witness :
  exists w',
    SqlStatement_bind_overload 2%positive (BindInt 9) Example.w_bound
      = (Throw (SqlDatabaseException "Error binding int param"), w') /\
    mBindNext <$> w_stmts w' !! 2%positive = Some 3.
Proof.
  assert (Hst : w_stmts Example.w_bound !! 2%positive
                = Some {| mpVM := Some 100%positive; mBindNext := 2; mEndOfRows := true;
                          mResult := {| mpParent := 2%positive |}; mColsInResult := 0 |})
    by (vm_compute; reflexivity).
  pose proof (bind_advances_cursor (Eng := Ref.engine) Example.w_bound 2%positive _
                100%positive (BindInt 9) Hst eq_refl) as H.
  cbv zeta in H. destruct H as (_ & Hrejected & _).
  - cbn. lia.
  - cbn. unfold INT_MAX. lia.
  - eexists. split.
    + apply Hrejected. vm_compute. discriminate.
    + vm_compute. reflexivity.
Defined.

Lemma index_checked_before_engine_witness :
  ResultRow_fieldName {| mpParent := 2%positive |} 2 Example.w_executed
    = (Throw IndexOutOfRange, Example.w_executed) /\
  ResultRow_getStringField {| mpParent := 2%positive |} (-1) NULL Example.w_executed
    = (Throw IndexOutOfRange, Example.w_executed).
Proof.
  split.
  - edestruct (index_checked_before_engine (Eng := Ref.engine) Example.w_executed
                 {| mpParent := 2%positive |}
                 {| mpVM := Some 100%positive; mBindNext := 1; mEndOfRows := false;
                    mResult := {| mpParent := 2%positive |}; mColsInResult := 2 |}
                 100%positive 2) as (Hname & _).
    + vm_compute. reflexivity.
    + reflexivity.
    + right. cbn. lia.
    + exact Hname.
  - edestruct (index_checked_before_engine (Eng := Ref.engine) Example.w_executed
                 {| mpParent := 2%positive |}
                 {| mpVM := Some 100%positive; mBindNext := 1; mEndOfRows := false;
                    mResult := {| mpParent := 2%positive |}; mColsInResult := 2 |}
                 100%positive (-1)) as (_ & _ & _ & _ & _ & _ & _ & _ & Hstr).
    + vm_compute. reflexivity.
    + reflexivity.
    + left. lia.
    + apply Hstr.
Defined.

Lemma row_requires_handle_witness :
  ResultRow_numFields {| mpParent := 2%positive |} Example.w_destroyed
    = (Throw InvalidHandle_row, Example.w_destroyed) /\
  ResultRow_fieldIndex {| mpParent := 2%positive |} (Some "id"%string) Example.w_destroyed
    = (Throw InvalidHandle_row, Example.w_destroyed).
Proof.
  edestruct (row_requires_handle (Eng := Ref.engine) Example.w_destroyed
               {| mpParent := 2%positive |}) as (Hnum & Hidx & _).
  - vm_compute. reflexivity.
  - reflexivity.
  - split; [exact Hnum | apply Hidx].
Defined.

Lemma getBlobField_in_range_witness :
  fst (ResultRow_getBlobField {| mpParent := 2%positive |} 1 Example.w_second)
    = Ret (NULL, 0).
Proof.
  erewrite (getBlobField_in_range (Eng := Ref.engine) Example.w_second
              {| mpParent := 2%positive |}
              {| mpVM := Some 100%positive; mBindNext := 1; mEndOfRows := false;
                 mResult := {| mpParent := 2%positive |}; mColsInResult := 2 |}
              100%positive 1).
  - reflexivity.
  - vm_compute. reflexivity.
  - reflexivity.
  - cbn. lia.
  - vm_compute. reflexivity.
  - vm_compute. reflexivity.
Defined.

Lemma fieldIndex_first_match_witness :
  fst (ResultRow_fieldIndex {| mpParent := 2%positive |} (Some "name"%string)
         Example.w_executed) = Ret 1 /\
  fst (ResultRow_fieldIndex {| mpParent := 2%positive |} (Some "Name"%string)
         Example.w_executed) = Throw FieldNotFound.
Proof.
  assert (Hnames : forall (i : nat) (nm : string),
            ["id"; "name"]%string !! i = Some nm ->
            eng_call (Engine := Ref.engine) (sqlite3_column_name (Some 100%positive) (Z.of_nat i))
              (w_eng Example.w_executed) = (Some nm, w_eng Example.w_executed)).
  { intros [|[|i]] nm Hi; cbn in Hi; try discriminate;
      injection Hi as <-; vm_compute; reflexivity. }
  split.
  - edestruct (fieldIndex_first_match (Eng := Ref.engine) Example.w_executed
                 {| mpParent := 2%positive |}
                 {| mpVM := Some 100%positive; mBindNext := 1; mEndOfRows := false;
                    mResult := {| mpParent := 2%positive |}; mColsInResult := 2 |}
                 100%positive "name" ["id"; "name"]%string) as (w' & Hrun & _).
    + vm_compute. reflexivity.
    + reflexivity.
    + reflexivity.
    + exact Hnames.
    + rewrite Hrun. reflexivity.
  - edestruct (fieldIndex_first_match (Eng := Ref.engine) Example.w_executed
                 {| mpParent := 2%positive |}
                 {| mpVM := Some 100%positive; mBindNext := 1; mEndOfRows := false;
                    mResult := {| mpParent := 2%positive |}; mColsInResult := 2 |}
                 100%positive "Name" ["id"; "name"]%string) as (w' & Hrun & _).
    + vm_compute. reflexivity.
    + reflexivity.
    + reflexivity.
    + exact Hnames.
    + rewrite Hrun. reflexivity.
Defined.

Lemma sqlExecute_outcomes_witness :
  fst (SqlDatabase_sqlExecute 1%positive "CREATE TABLE t(id INTEGER PRIMARY KEY, name TEXT)"
         Example.w0) = Ret tt.
Proof.
  edestruct (sqlExecute_outcomes (Eng := Ref.engine) Example.w0 1%positive Example.db1
               7%positive "CREATE TABLE t(id INTEGER PRIMARY KEY, name TEXT)" SQLITE_OK)
    as (Hok & _).
  - vm_compute. reflexivity.
  - reflexivity.
  - vm_compute. reflexivity.
  - rewrite (Hok eq_refl). reflexivity.
Defined.

Lemma sqlExec_frees_buffer_witness :
  SqlDatabase_sqlExecVar 1%positive "DELETE FROM t" [] Example.w0
    = SqlDatabase_sqlExec 1%positive "DELETE FROM t" [] Example.w0 /\
  count_calls is_free (w_log (snd (SqlDatabase_sqlExec 1%positive "DELETE FROM t" []
                                     Example.w0))) = 1%nat.
Proof.
  edestruct (sqlExec_frees_buffer (Eng := Ref.engine) Example.w0 1%positive Example.db1
               7%positive "DELETE FROM t" [] "DELETE FROM t")
    with (result := SQLITE_OK) as (_ & Hsame & Hfree).
  - vm_compute. reflexivity.
  - reflexivity.
  - vm_compute. reflexivity.
  - vm_compute. reflexivity.
  - vm_compute. reflexivity.
  - split; [exact Hsame|].
    erewrite Hfree; [|apply surjective_pairing]. reflexivity.
Defined.

Lemma formatting_failure_witness :
  fst (SqlDatabase_sqlExec 1%positive "DELETE FROM t WHERE id=%d" [va_int 1] Example.w0)
    = Throw FormattingFailed /\
  fst (SqlDatabase_sqlFormat 1%positive "%d" [va_int 1] Example.w0)
    = Undefined "std::string constructed from a null pointer".
Proof.
  split.
  - edestruct (formatting_failure (Eng := Ref.engine) Example.w0 1%positive Example.db1
                 7%positive "DELETE FROM t WHERE id=%d" [va_int 1]) as (Hexec & _).
    + vm_compute. reflexivity.
    + reflexivity.
    + vm_compute. reflexivity.
    + rewrite Hexec. reflexivity.
  - edestruct (formatting_failure (Eng := Ref.engine) Example.w0 1%positive Example.db1
                 7%positive "%d" [va_int 1]) as (_ & _ & _ & Hfmt).
    + vm_compute. reflexivity.
    + reflexivity.
    + vm_compute. reflexivity.
    + rewrite Hfmt. reflexivity.
Defined.

Lemma closed_connection_witness :
  SqlDatabase_sqlExecute 1%positive "DELETE FROM t" Example.w_closed
    = (Throw InvalidHandle_db, Example.w_closed) /\
  SqlDatabase_close 1%positive Example.w_closed = (Ret tt, Example.w_closed) /\
  w_log (snd (SqlDatabase_lastRowId 1%positive Example.w_closed))
    = [Called (sqlite3_last_insert_rowid NULL)].
Proof.
  edestruct (closed_connection (Eng := Ref.engine) Example.w_closed 1%positive)
    as (Hexec & _ & _ & _ & _ & _ & Hclose & _ & Hrow & _).
  - vm_compute. reflexivity.
  - reflexivity.
  - split; [apply Hexec|]. split; [exact Hclose|exact Hrow].
Defined.



Lemma sqlQuery_step_failure_finalizes_witness :
  exists w',
    SqlDatabase_sqlQuery 1%positive 2%positive "UPDATE t SET name='x'" []
      Example.w_contended = (Throw SqlDatabaseBusyException, w') /\
    w_stmts w' = ∅ /\
    count_calls is_finalize (w_log w') = 1%nat.
Proof.
  edestruct (sqlQuery_step_failure_finalizes (Eng := Ref.engine) Example.w_contended
               1%positive Example.db1 7%positive 2%positive "UPDATE t SET name='x'" []
               "UPDATE t SET name='x'" 100%positive EmptyString)
    with (result := SQLITE_BUSY) as (ex & w' & Hrun & Hbusy & Hs & Hfin & _).
  - vm_compute. reflexivity.
  - reflexivity.
  - vm_compute. reflexivity.
  - vm_compute. reflexivity.
  - reflexivity.
  - vm_compute. reflexivity.
  - vm_compute. reflexivity.
  - discriminate.
  - discriminate.
  - unfold SQLITE_BUSY. lia.
  - exists w'. rewrite (Hbusy eq_refl) in Hrun.
    split; [exact Hrun|]. split; [exact Hs | exact Hfin].
Defined.

Lemma assign_releases_old_handle_witness :
  exists w',
    SqlStatement_assign 3%positive 2%positive Example.w_two = (Ret 3%positive, w') /\
    mpVM <$> w_stmts w' !! 3%positive = Some (Some 100%positive) /\
    mpVM <$> w_stmts w' !! 2%positive = Some NULL /\
    w_log w' = w_log Example.w_two ++ [Called (sqlite3_finalize (Some 101%positive))].
Proof.
  edestruct (assign_releases_old_handle (Eng := Ref.engine) Example.w_two
               3%positive 2%positive) as (w' & Hrun & Hdst & Hsrc & Hlog & _).
  - vm_compute. reflexivity.
  - vm_compute. reflexivity.
  - discriminate.
  - exists w'. split; [exact Hrun|].
    assert (E : w' = snd (SqlStatement_assign 3%positive 2%positive Example.w_two))
      by (rewrite Hrun; reflexivity).
    rewrite E. vm_compute. repeat split; reflexivity.
Defined.

Lemma self_assignment_loses_handle_witness :
  exists w',
    SqlStatement_assign 2%positive 2%positive Example.w_compiled = (Ret 2%positive, w') /\
    mpVM <$> w_stmts w' !! 2%positive = Some NULL /\
    w_log w' = w_log Example.w_compiled ++ [Called (sqlite3_finalize (Some 100%positive))].
Proof.
  edestruct (self_assignment_loses_handle (Eng := Ref.engine) Example.w_compiled 2%positive)
    as (w' & Hrun & Hvm & _ & Hlog).
  - vm_compute. reflexivity.
  - exists w'. split; [exact Hrun|]. split; [exact Hvm|exact Hlog].
Defined.

Lemma tableExists_runs_catalog_query_witness :
  strlen "x' OR '1'='1" <= 62 /\
  SqlDatabase_tableExists 1%positive "x' OR '1'='1" Example.w0 =
    (nRet ← SqlDatabase_getScalar 1%positive
              "SELECT COUNT(*) FROM sqlite_master WHERE type='table' AND name='x' OR '1'='1'"
              (-1);
     mret (nRet >? 0)) Example.w0.
Proof.
  assert (H : strlen "x' OR '1'='1" <= 62) by (vm_compute; discriminate).
  split; [exact H|].
  exact (tableExists_runs_catalog_query (Eng := Ref.engine) Example.w0 1%positive
           "x' OR '1'='1" H).
Defined.

Lemma row_views_invariant_witness :
  row_views_ok (w_stmts Example.w_two) /\
  row_views_ok (w_stmts (snd (SqlStatement_assign 3%positive 2%positive Example.w_two))) /\
  row_views_ok (w_stmts (snd (SqlStatement_copy_ctor 4%positive 2%positive Example.w_two))).
Proof.
  assert (H : row_views_ok (w_stmts Example.w_two)).
  { unfold row_views_ok.
    refine (bool_decide_unpack (map_Forall _ (w_stmts Example.w_two)) _).
    vm_compute. exact I. }
  destruct (row_views_invariant (Eng := Ref.engine) 3%positive 2%positive 1%positive)
    as (_ & _ & _ & Hassign & _).
  destruct (row_views_invariant (Eng := Ref.engine) 4%positive 2%positive 1%positive)
    as (_ & _ & Hcopy & _).
  split; [exact H|]. split.
  - eapply Hassign; [exact H | apply surjective_pairing].
  - eapply Hcopy; [exact H | apply surjective_pairing].
Defined.

Lemma ThrowStatusCodeException_named_witness :
  ThrowStatusCodeException 11 (Some 7%positive) Example.w0 =
    (Throw (SqlDatabaseException "Result code 11 (SQLITE_CORRUPT)"), Example.w0).
Proof.
  destruct (ThrowStatusCodeException_named (Eng := Ref.engine) 11 (Some 7%positive)
              Example.w0) as (d & Hd & Hrun).
  - lia.
  - discriminate.
  - discriminate.
  - rewrite Hrun. cbn in Hd. injection Hd as <-. vm_compute. reflexivity.
Defined.

Lemma ThrowStatusCodeException_bare_witness :
  ThrowStatusCodeException 266 (Some 7%positive) Example.w0 =
    (Throw (SqlDatabaseException "Result code 266"), Example.w0).
Proof.
  rewrite (ThrowStatusCodeException_bare (Eng := Ref.engine) 266 (Some 7%positive)
             Example.w0) by lia.
  vm_compute. reflexivity.
Defined.
